(** * Hydration reminder: notification scheduling and delivery

    A shallow embedding of the notification engine of the hydration
    reminder backend:

    - [User.shouldReceiveNotificationAtHour]   (backend/models/User.js)
    - [Subscription.markAsFailed], [Subscription.markAsSuccessful]
                                               (backend/models/Subscription.js)
    - [WebPush.sendNotification], [WebPush.sendBulkNotifications]
                                               (backend/utils/webPush.js)
    - [Cron.enabledSubscriptions] (the filter of [sendHydrationReminders]),
      [Cron.start], [Cron.stop], [Cron.startTestMode], [Cron.getStatus]
                                               (backend/cron/notifications.js)
    - [WebPushUtil]: [handleFailedNotification], [validateSubscription],
      [isWebPushConfigured], [getVapidPublicKey], the payload builders
                                               (backend/utils/webPush.js)
    - [SubscriptionStore]: the queries and the cleanup of the collection
                                               (backend/models/Subscription.js)
    - [NotificationRoutes.subscribe], [NotificationRoutes.unsubscribe]
                                               (backend/routes/notifications.js)
    - [Reminders]: a whole run of [sendHydrationReminders],
      [sendTestNotification], [triggerManual] and sequences of timer calls
                                               (backend/cron/notifications.js)
    - [VerifyFixes.shouldReceiveNotificationAtHour] (backend/verify-fixes.js)
    - [AuthRoutes.updateProfile]               (backend/routes/auth.js)

    Hours, minutes and counters are JavaScript numbers holding integers and
    are modelled in [Z]; the JavaScript remainder [%] truncates towards zero
    and is [Z.rem].  Strings are [string]; [null]/[undefined] are [None]. *)

From Stdlib Require Import ZArith List Bool String Lia.
Import ListNotations.

Local Open Scope string_scope.
Local Open Scope Z_scope.

(* ===================================================================== *)
(** ** JavaScript values used by the models                              *)
(* ===================================================================== *)

Module JS.

(** [a % b === 0] on integer-valued numbers. *)
Definition rem_is_zero (a b : Z) : bool := Z.rem a b =? 0.

(** [s || d] on strings: the empty string is falsy. *)
Definition str_or (s d : string) : string :=
  if String.eqb s "" then d else s.

(** The values a Mongoose [Number] path can hold in memory once arithmetic
    has been done on it: [undefined], [null], [NaN] or a number (here an
    integer, the path is a counter). *)
Inductive num : Type :=
| Undefined
| Null
| NaN
| Int (n : Z).

(** The global [isNaN(v)]: [Number(undefined)] is [NaN], [Number(null)]
    is [0]. *)
Definition isNaN (v : num) : bool :=
  match v with
  | Undefined | NaN => true
  | Null | Int _ => false
  end.

(** [v + 1] after [ToNumber]. *)
Definition add1 (v : num) : num :=
  match v with
  | Undefined | NaN => NaN
  | Null => Int 1
  | Int n => Int (n + 1)
  end.

(** [v >= k]: any comparison with [NaN] is [false]. *)
Definition geb (v : num) (k : Z) : bool :=
  match v with
  | Undefined | NaN => false
  | Null => 0 >=? k
  | Int n => n >=? k
  end.

End JS.

(* ===================================================================== *)
(** ** backend/models/User.js                                            *)
(* ===================================================================== *)

Module User.

(** The fields of the user document the scheduler reads (the ones
    [getAllActiveSubscriptions] populates). *)
Record t : Type := mk {
  notificationsEnabled : bool;
  notificationStartHour : Z;
  notificationEndHour : Z;
  notificationFrequency : string
}.

(** The [if (endHour === 0) ... else if (startHour <= endHour) ... else]
    cascade computing [withinTimeWindow]. *)
Definition withinTimeWindow (startHour endHour currentHour : Z) : bool :=
  if endHour =? 0 then
    (currentHour >=? startHour) && (currentHour <? 24)
  else if startHour <=? endHour then
    (currentHour >=? startHour) && (currentHour <=? endHour)
  else
    (currentHour >=? startHour) || (currentHour <=? endHour).

(** The two [switch (frequency)] blocks; every string that is not one of
    the three named cases falls to [default], which shares the ['1hr']
    body. *)
Definition frequencyRule (isTestMode : bool) (frequency : string)
           (currentHour currentMinute : Z) : bool :=
  if isTestMode then
    if String.eqb frequency "1min" then true
    else if String.eqb frequency "30min" then JS.rem_is_zero currentMinute 30
    else if String.eqb frequency "2hr" then JS.rem_is_zero currentMinute 120
    else JS.rem_is_zero currentMinute 60
  else
    if String.eqb frequency "1min" then currentMinute =? 0
    else if String.eqb frequency "30min" then
      (currentMinute =? 0) || (currentMinute =? 30)
    else if String.eqb frequency "2hr" then
      JS.rem_is_zero currentHour 2 && (currentMinute =? 0)
    else currentMinute =? 0.

Definition shouldReceiveNotificationAtHour
           (this : t) (currentHour currentMinute : Z) (isTestMode : bool)
  : bool :=
  if negb (notificationsEnabled this) then false
  else
    let startHour := notificationStartHour this in
    let endHour := notificationEndHour this in
    let frequency := JS.str_or (notificationFrequency this) "1hr" in
    if negb (withinTimeWindow startHour endHour currentHour) then false
    else frequencyRule isTestMode frequency currentHour currentMinute.

End User.

(* ===================================================================== *)
(** ** backend/models/Subscription.js                                    *)
(* ===================================================================== *)

Module Subscription.

Record t : Type := mk {
  userId : option User.t;            (* populated owner, [null] if gone *)
  endpoint : string;
  p256dh : string;
  auth : string;
  isActive : bool;
  lastNotificationSent : option Z;   (* a [Date] as epoch milliseconds *)
  failedAttempts : JS.num;
  lastError : option string
}.

(** A document as the schema defaults create it. *)
Definition fresh (owner : option User.t) (ep k a : string) : t :=
  {| userId := owner; endpoint := ep; p256dh := k; auth := a;
     isActive := true; lastNotificationSent := None;
     failedAttempts := JS.Int 0; lastError := None |}.

(** [markAsFailed(errorMessage)]: the document after the assignments. *)
Definition markAsFailed (this : t) (errorMessage : string) : t :=
  let fa0 := if JS.isNaN (failedAttempts this) then JS.Int 0
             else failedAttempts this in
  let fa1 := JS.add1 fa0 in
  {| userId := userId this; endpoint := endpoint this;
     p256dh := p256dh this; auth := auth this;
     isActive := if JS.geb fa1 5 then false else isActive this;
     lastNotificationSent := lastNotificationSent this;
     failedAttempts := fa1;
     lastError := Some errorMessage |}.

(** [markAsSuccessful()]; [now] is the value of [new Date()]. *)
Definition markAsSuccessful (now : Z) (this : t) : t :=
  {| userId := userId this; endpoint := endpoint this;
     p256dh := p256dh this; auth := auth this;
     isActive := true;
     lastNotificationSent := Some now;
     failedAttempts := JS.Int 0;
     lastError := None |}.

(** The schema validator [max: 10] on [failedAttempts], which [save()]
    runs; [null]/[undefined] pass a [max] validator. *)
Definition failedAttempts_max_ok (this : t) : bool :=
  match failedAttempts this with
  | JS.Int n => n <=? 10
  | JS.NaN => false
  | JS.Undefined | JS.Null => true
  end.

(** Consecutive failures, oldest first. *)
Definition markAsFailed_all (this : t) (errors : list string) : t :=
  fold_left markAsFailed errors this.

(** The fields the delivery bookkeeping tracks. *)
Definition tracked (this : t) : JS.num * option string * bool :=
  (failedAttempts this, lastError this, isActive this).

(** What the writers of this file maintain on [failedAttempts]: a
    non-negative count, or a value that is not a number at all. *)
Definition counter_ok (v : JS.num) : Prop :=
  match v with
  | JS.Int n => 0 <= n
  | _ => True
  end.

End Subscription.

(* ===================================================================== *)
(** ** backend/utils/webPush.js                                          *)
(* ===================================================================== *)

Module WebPush.

(** What [getWebPushFormat] hands to the transport. *)
Record PushSubscription : Type := mkPush {
  push_endpoint : string;
  push_p256dh : string;
  push_auth : string
}.

(** A thrown [Error]: its [message] and, for a [WebPushError], the HTTP
    [statusCode]. *)
Record JsError : Type := mkError {
  message : string;
  err_statusCode : option Z
}.

(** The transport's answer to one request. *)
Record Response : Type := mkResponse {
  resp_statusCode : Z;
  resp_headers : list (string * string)
}.

(** The options object after [{ ...defaultOptions, ...options }]. *)
Record Options : Type := mkOptions {
  TTL : Z;
  urgency : string;
  topic : string
}.

(** The caller's [options] argument: each key present or absent. *)
Record OptionsArg : Type := mkOptionsArg {
  opt_TTL : option Z;
  opt_urgency : option string;
  opt_topic : option string
}.

Definition noOptions : OptionsArg :=
  {| opt_TTL := None; opt_urgency := None; opt_topic := None |}.

Definition defaultOptions : Options :=
  {| TTL := 24 * 60 * 60; urgency := "normal"; topic := "hydration-reminder" |}.

Definition spread {A} (d : A) (o : option A) : A :=
  match o with Some v => v | None => d end.

Definition finalOptions (options : OptionsArg) : Options :=
  {| TTL := spread (TTL defaultOptions) (opt_TTL options);
     urgency := spread (urgency defaultOptions) (opt_urgency options);
     topic := spread (topic defaultOptions) (opt_topic options) |}.

(** [process.env.VAPID_PUBLIC_KEY] and [process.env.VAPID_PRIVATE_KEY]. *)
Record Env : Type := mkEnv {
  VAPID_PUBLIC_KEY : option string;
  VAPID_PRIVATE_KEY : option string
}.

(** Truthiness of an environment variable. *)
Definition truthy (v : option string) : bool :=
  match v with
  | Some s => negb (String.eqb s "")
  | None => false
  end.

(** A call completes by returning or by throwing. *)
Inductive completion (A : Type) : Type :=
| Returned (v : A)
| Threw (e : JsError).
Arguments Returned {A} v.
Arguments Threw {A} e.

(** A settled promise. *)
Inductive settled (A : Type) : Type :=
| Fulfilled (value : A)
| Rejected (reason : JsError).
Arguments Fulfilled {A} value.
Arguments Rejected {A} reason.

(** The object [sendNotification] resolves to, tagged by its [success]
    field. *)
Inductive SendResult : Type :=
| Sent (statusCode : Z) (headers : list (string * string))
| Failed (error : string) (statusCode : option Z) (endpoint : option string).

Definition success (r : SendResult) : bool :=
  match r with Sent _ _ => true | Failed _ _ _ => false end.

(** One element of the array [sendBulkNotifications] returns. *)
Record BulkEntry : Type := mkEntry {
  subscription : option PushSubscription;
  result : SendResult
}.

(** [xs.map((x, index) => f index x)]. *)
Fixpoint mapi_from {A B} (i : nat) (f : nat -> A -> B) (xs : list A) : list B :=
  match xs with
  | [] => []
  | x :: xs' => f i x :: mapi_from (S i) f xs'
  end.

Definition mapi {A B} (f : nat -> A -> B) (xs : list A) : list B :=
  mapi_from 0 f xs.

(** [subscriptions[index]]; out of range reads [undefined]. *)
Definition at_index (subscriptions : list (option PushSubscription))
           (index : nat) : option PushSubscription :=
  match nth_error subscriptions index with
  | Some s => s
  | None => None
  end.

Section Transport.

(** The environment and the push service.  [webpush_sendNotification i]
    is how the [web-push] library completes the [i]-th request of a
    fan-out, by returning the service's response or by throwing (a
    [WebPushError], or an [Error] for arguments it refuses): the service is
    free to answer every request differently.  A subscription that is
    [null] or [undefined] is [None]. *)
Variable env : Env.
Variable webpush_sendNotification :
  nat -> option PushSubscription -> string -> Options -> completion Response.

(** The [catch] block of [sendNotification]: reading
    [subscription.endpoint] throws when there is no subscription object,
    and the async function then rejects. *)
Definition on_error (subscription : option PushSubscription) (error : JsError)
  : settled SendResult :=
  match subscription with
  | Some s =>
      Fulfilled (Failed (message error) (err_statusCode error)
                        (Some (push_endpoint s)))
  | None =>
      Rejected (mkError
        "Cannot read properties of undefined (reading 'endpoint')" None)
  end.

(** [sendNotification(subscription, payload, options)], as the [i]-th
    request; [payloadString] is the payload after [JSON.stringify]. *)
Definition sendNotification (i : nat)
           (subscription : option PushSubscription)
           (payloadString : string) (options : OptionsArg)
  : settled SendResult :=
  if negb (truthy (VAPID_PUBLIC_KEY env)) || negb (truthy (VAPID_PRIVATE_KEY env))
  then on_error subscription (mkError "VAPID keys not configured" None)
  else
    match webpush_sendNotification i subscription payloadString
                                   (finalOptions options) with
    | Returned r => Fulfilled (Sent (resp_statusCode r) (resp_headers r))
    | Threw error => on_error subscription error
    end.

(** The callback of [results.map] at the end of [sendBulkNotifications]:
    [result.status === 'fulfilled' ? result.value
       : { success: false, error: result.reason?.message || 'Unknown error' }]. *)
Definition outcome_of (r : settled SendResult) : SendResult :=
  match r with
  | Fulfilled value => value
  | Rejected reason =>
      Failed (JS.str_or (message reason) "Unknown error") None None
  end.

(** [sendBulkNotifications(subscriptions, payload, options)]: the
    promises are created in order, [Promise.allSettled] waits for all of
    them, and the outer [try] has nothing left that throws. *)
Definition sendBulkNotifications
           (subscriptions : list (option PushSubscription))
           (payloadString : string) (options : OptionsArg)
  : completion (list BulkEntry) :=
  let promises :=
    mapi (fun i subscription =>
            sendNotification i subscription payloadString options)
         subscriptions in
  let results := promises in
  Returned
    (mapi (fun index result =>
             {| subscription := at_index subscriptions index;
                result := outcome_of result |})
          results).

End Transport.

End WebPush.

(* ===================================================================== *)
(** ** backend/cron/notifications.js                                     *)
(* ===================================================================== *)

Module Cron.

(** Status of a [node-cron] task. *)
Inductive TaskStatus : Type := Scheduled | Destroyed.

(** A task created by [cron.schedule]; [task_isTestMode] is the argument
    its callback passes to [sendHydrationReminders].  A task scheduled with
    [scheduled: true] reports ['scheduled'] until it is destroyed. *)
Record Task : Type := mkTask {
  task_isTestMode : bool;
  task_status : TaskStatus
}.

(** The module-level variables [cronJob] and [testCronJob] ([None] is
    [undefined] or [null]), and the number of daily cleanup tasks
    scheduled so far (their handles are not kept). *)
Record State : Type := mkState {
  cronJob : option Task;
  testCronJob : option Task;
  cleanupJobs : nat
}.

(** The module right after loading: nothing scheduled. *)
Definition initial : State :=
  {| cronJob := None; testCronJob := None; cleanupJobs := 0 |}.

(** [process.env.NODE_ENV === 'production']. *)
Definition is_production (NODE_ENV : option string) : bool :=
  match NODE_ENV with
  | Some s => String.eqb s "production"
  | None => false
  end.

(** [start]: the arrow function declares no parameter, so an argument at
    a call site is dropped; the task it schedules calls
    [sendHydrationReminders(false)]. *)
Definition start (st : State) : State :=
  match cronJob st with
  | Some _ => st
  | None =>
      {| cronJob := Some {| task_isTestMode := false; task_status := Scheduled |};
         testCronJob := testCronJob st;
         cleanupJobs := S (cleanupJobs st) |}
  end.

(** [stop]: both handles are destroyed and cleared. *)
Definition stop (st : State) : State :=
  {| cronJob := None; testCronJob := None; cleanupJobs := cleanupJobs st |}.

(** [startTestMode]: [stop(); start(true);] unless in production. *)
Definition startTestMode (NODE_ENV : option string) (st : State) : State :=
  if is_production NODE_ENV then st
  else start (stop st).

(** [startProductionMode]: [stop(); start(false);]. *)
Definition startProductionMode (st : State) : State :=
  start (stop st).

Record ModeStatus : Type := mkModeStatus {
  isRunning : bool
}.

Record Status : Type := mkStatus {
  production : ModeStatus;
  test : ModeStatus;
  timezone : string
}.

Definition task_running (j : option Task) : bool :=
  match j with
  | Some t => match task_status t with Scheduled => true | Destroyed => false end
  | None => false
  end.

(** [getStatus] (the [nextRun] dates are left out). *)
Definition getStatus (st : State) : Status :=
  {| production := {| isRunning := task_running (cronJob st) |};
     test := {| isRunning := task_running (testCronJob st) |};
     timezone := "UTC" |}.

(** The modes in which the ticks of the scheduled tasks run
    [sendHydrationReminders]. *)
Definition tick_modes (st : State) : list bool :=
  let modes (j : option Task) :=
    match j with
    | Some t => match task_status t with
                | Scheduled => [task_isTestMode t]
                | Destroyed => []
                end
    | None => []
    end in
  modes (cronJob st) ++ modes (testCronJob st).

(** The filter of [sendHydrationReminders(isTestMode)] at wall-clock time
    [currentHour]:[currentMinute] (IST): the subscriptions it goes on to
    send to. *)
Definition enabledSubscriptions (isTestMode : bool)
           (currentHour currentMinute : Z)
           (subscriptions : list Subscription.t) : list Subscription.t :=
  filter
    (fun sub =>
       match Subscription.userId sub with
       | None => false
       | Some user =>
           let checkMinute := if isTestMode then currentMinute else 0 in
           User.shouldReceiveNotificationAtHour user currentHour checkMinute
                                                isTestMode
       end)
    subscriptions.

(** [enabledSubscriptions.map(sub => sub.getWebPushFormat())]. *)
Definition getWebPushFormat (sub : Subscription.t) : WebPush.PushSubscription :=
  {| WebPush.push_endpoint := Subscription.endpoint sub;
     WebPush.push_p256dh := Subscription.p256dh sub;
     WebPush.push_auth := Subscription.auth sub |}.

End Cron.

(* ===================================================================== *)
(** ** backend/utils/webPush.js: validation, classification, payloads    *)
(* ===================================================================== *)

Module WebPushUtil.

(** [s.includes(sub)]: [sub] occurs in [s] at some position. *)
Fixpoint includes (s sub : string) : bool :=
  if String.prefix sub s then true
  else match s with
       | EmptyString => false
       | String _ rest => includes rest sub
       end.

(** The object [handleFailedNotification] returns. *)
Record FailureInfo : Type := mkFailureInfo {
  shouldRemove : bool;
  shouldRetry : bool;
  info_error : string
}.

Definition permanentFailures : list string :=
  ["Gone"; "Not Found"; "Bad Request"].

Definition temporaryFailures : list string :=
  ["Too Many Requests"; "Internal Server Error"; "Service Unavailable"].

(** [handleFailedNotification(subscription, error)]; the subscription is
    not looked at. *)
Definition handleFailedNotification {A : Type} (subscription : A) (error : string)
  : FailureInfo :=
  {| shouldRemove := existsb (fun failure => includes error failure) permanentFailures;
     shouldRetry := existsb (fun failure => includes error failure) temporaryFailures;
     info_error := error |}.

(** The [keys] object of a subscription sent by a browser; a key that is
    absent is [None]. *)
Record KeysArg : Type := mkKeysArg {
  arg_p256dh : option string;
  arg_auth : option string
}.

(** The [{ endpoint, keys }] object handed to [validateSubscription]. *)
Record SubscriptionArg : Type := mkSubscriptionArg {
  arg_endpoint : option string;
  arg_keys : option KeysArg
}.

(** [isWebPushConfigured()]. *)
Definition isWebPushConfigured (env : WebPush.Env) : bool :=
  WebPush.truthy (WebPush.VAPID_PUBLIC_KEY env)
  && WebPush.truthy (WebPush.VAPID_PRIVATE_KEY env).


Section Url.

(** [url_ok s]: [new URL(s)] does not throw. *)
Variable url_ok : string -> bool.

(** [validateSubscription(subscription)]. *)
Definition validateSubscription (subscription : option SubscriptionArg) : bool :=
  match subscription with
  | None => false
  | Some s =>
      if negb (WebPush.truthy (arg_endpoint s)) then false
      else
        match arg_keys s with
        | None => false
        | Some keys =>
            if negb (WebPush.truthy (arg_p256dh keys))
               || negb (WebPush.truthy (arg_auth keys))
            then false
            else
              match arg_endpoint s with
              | Some e => url_ok e
              | None => false
              end
        end
  end.

(** The [pre('save')] hook of the subscription schema: the error it passes
    to [next], if any. *)
Definition preSave (this : Subscription.t) : option string :=
  if negb (url_ok (Subscription.endpoint this))
  then Some "Invalid subscription endpoint URL"
  else if String.eqb (Subscription.p256dh this) ""
          || String.eqb (Subscription.auth this) ""
  then Some "Missing required subscription keys"
  else None.

End Url.

(** One button of a notification. *)
Record Action : Type := mkAction {
  action : string;
  action_title : string;
  action_icon : string
}.

(** The [data] bag of a payload; the keys only some callers set are
    optional. *)
Record NotificationData : Type := mkData {
  data_url : string;
  data_action : string;
  data_timestamp : Z;
  data_hour : option Z;
  data_minute : option Z;
  data_isTest : option bool
}.

Record Notification : Type := mkNotification {
  title : string;
  body : string;
  icon : string;
  badge : string;
  tag : string;
  requireInteraction : bool;
  silent : bool;
  data : NotificationData;
  actions : list Action
}.

(** The [options] argument of [createHydrationNotification]: each key
    present or absent. *)
Record NotificationOptions : Type := mkNotificationOptions {
  opt_title : option string;
  opt_body : option string;
  opt_icon : option string;
  opt_badge : option string;
  opt_tag : option string;
  opt_requireInteraction : option bool;
  opt_silent : option bool;
  opt_data : option NotificationData;
  opt_actions : option (list Action)
}.

Definition defaultNotification (now : Z) : Notification :=
  {| title := "Drink Water! 💧";
     body := "Stay Hydrated. Time to drink some water!";
     icon := "/icon-192x192.png";
     badge := "/badge-72x72.png";
     tag := "hydration-reminder";
     requireInteraction := false;
     silent := false;
     data := {| data_url := "/"; data_action := "hydration-reminder";
                data_timestamp := now; data_hour := None;
                data_minute := None; data_isTest := None |};
     actions := [ {| action := "log-water"; action_title := "✅ Drink Water";
                     action_icon := "/icon-check.png" |};
                  {| action := "snooze"; action_title := "⏰ Remind Later";
                     action_icon := "/icon-snooze.png" |} ] |}.

(** [createHydrationNotification(options)]: [{ ...defaultNotification,
    ...options }], a merge of the top-level keys only; [now] is
    [Date.now()]. *)
Definition createHydrationNotification (now : Z) (options : NotificationOptions)
  : Notification :=
  let d := defaultNotification now in
  {| title := WebPush.spread (title d) (opt_title options);
     body := WebPush.spread (body d) (opt_body options);
     icon := WebPush.spread (icon d) (opt_icon options);
     badge := WebPush.spread (badge d) (opt_badge options);
     tag := WebPush.spread (tag d) (opt_tag options);
     requireInteraction :=
       WebPush.spread (requireInteraction d) (opt_requireInteraction options);
     silent := WebPush.spread (silent d) (opt_silent options);
     data := WebPush.spread (data d) (opt_data options);
     actions := WebPush.spread (actions d) (opt_actions options) |}.

(** [createTestNotification()]. *)
Definition createTestNotification (now : Z) : Notification :=
  createHydrationNotification now
    {| opt_title := Some "Test Water Reminder 🧪💧";
       opt_body := Some "Click me to test the water alert sound and auto-logging!";
       opt_icon := None; opt_badge := None;
       opt_tag := Some "test-hydration-reminder";
       opt_requireInteraction := Some true;
       opt_silent := Some false;
       opt_data := Some {| data_url := "/"; data_action := "hydration-reminder";
                           data_timestamp := now; data_hour := None;
                           data_minute := None; data_isTest := Some true |};
       opt_actions := None |}.

End WebPushUtil.

(* ===================================================================== *)
(** ** backend/models/Subscription.js: the collection and its queries    *)
(* ===================================================================== *)

Module SubscriptionStore.

(** A stored subscription document: its [_id], the id of its owner
    ([userId] before [populate]), [userAgent], the [updatedAt] timestamp
    and the remaining paths.  The [userId] of [row_doc] is the joined owner
    and is filled by [populate]. *)
Record Row : Type := mkRow {
  row_id : nat;
  row_owner : string;
  row_userAgent : option string;
  row_updatedAt : Z;
  row_doc : Subscription.t
}.

(** [{ $lt: k }] and [{ $gte: k }] on a stored counter; a stored counter is
    a number, and a missing or [null] value matches neither. *)
Definition lt (v : JS.num) (k : Z) : bool :=
  match v with JS.Int n => n <? k | _ => false end.

Definition gte (v : JS.num) (k : Z) : bool :=
  match v with JS.Int n => n >=? k | _ => false end.

(** The filter [{ isActive: true, failedAttempts: { $lt: 5 } }]. *)
Definition active_filter (r : Row) : bool :=
  Subscription.isActive (row_doc r)
  && lt (Subscription.failedAttempts (row_doc r)) 5.

(** The document a query with a projection hands out; [owner] is what
    [userId] reads.  Only the selected paths are loaded and schema defaults
    are not applied to the others, so [failedAttempts], [lastError] and
    [lastNotificationSent] read [undefined].  [isActive] is not loaded
    either; no method reads it, and the record keeps the stored value,
    which [save()] leaves in place for a path that is not assigned. *)
Definition projected (owner : option User.t) (r : Row) : Subscription.t :=
  {| Subscription.userId := owner;
     Subscription.endpoint := Subscription.endpoint (row_doc r);
     Subscription.p256dh := Subscription.p256dh (row_doc r);
     Subscription.auth := Subscription.auth (row_doc r);
     Subscription.isActive := Subscription.isActive (row_doc r);
     Subscription.lastNotificationSent := None;
     Subscription.failedAttempts := JS.Undefined;
     Subscription.lastError := None |}.

Section Users.

(** The users collection, by id. *)
Variable users : string -> option User.t.

(** [.populate('userId', ...).select('endpoint keys userId')]: the owner
    is joined in, [null] when the user is gone. *)
Definition loaded (r : Row) : Subscription.t :=
  projected (users (row_owner r)) r.

(** [Subscription.getAllActiveSubscriptions()]. *)
Definition getAllActiveSubscriptions (store : list Row) : list Subscription.t :=
  map loaded (filter active_filter store).

End Users.

(** [Subscription.getActiveSubscriptionsForUser(userId)]; its projection
    ['endpoint keys userAgent'] leaves [userId] out as well. *)
Definition getActiveSubscriptionsForUser (userId : string) (store : list Row)
  : list Subscription.t :=
  map (projected None)
      (filter (fun r => String.eqb (row_owner r) userId && active_filter r) store).

(** The filter of [cleanupInactiveSubscriptions]:
    [{ $or: [ { isActive: false, updatedAt: { $lt: thirtyDaysAgo } },
              { failedAttempts: { $gte: 10 } } ] }]. *)
Definition cleanup_filter (thirtyDaysAgo : Z) (r : Row) : bool :=
  (negb (Subscription.isActive (row_doc r)) && (row_updatedAt r <? thirtyDaysAgo))
  || gte (Subscription.failedAttempts (row_doc r)) 10.

(** [cleanupInactiveSubscriptions()]: the collection after [deleteMany] and
    [deletedCount]; [thirtyDaysAgo] is the date the function computes. *)
Definition cleanupInactiveSubscriptions (thirtyDaysAgo : Z) (store : list Row)
  : list Row * nat :=
  (filter (fun r => negb (cleanup_filter thirtyDaysAgo r)) store,
   List.length (filter (cleanup_filter thirtyDaysAgo) store)).

(** [findOne(filter)]: the first matching document. *)
Definition findOne (p : Row -> bool) (store : list Row) : option Row :=
  find p store.

(** [findByEndpoint(endpoint)]. *)
Definition findByEndpoint (endpoint : string) (store : list Row) : option Row :=
  findOne (fun r => String.eqb (Subscription.endpoint (row_doc r)) endpoint) store.

(** [deleteOne]/[findOneAndDelete]/[findByIdAndDelete]: the first matching
    document is removed. *)
Fixpoint deleteOne (p : Row -> bool) (store : list Row) : list Row :=
  match store with
  | [] => []
  | r :: rest => if p r then rest else r :: deleteOne p rest
  end.

(** [save()] of a modified document: the stored document with its [_id]
    is replaced. *)
Fixpoint replaceOne (id : nat) (r' : Row) (store : list Row) : list Row :=
  match store with
  | [] => []
  | r :: rest =>
      if Nat.eqb (row_id r) id then r' :: rest
      else r :: replaceOne id r' rest
  end.

(** What the database guarantees on the collection: [_id] is unique, and
    so is [endpoint] (the schema's [unique: true] index). *)
Definition store_ok (store : list Row) : Prop :=
  NoDup (map row_id store) /\
  NoDup (map (fun r => Subscription.endpoint (row_doc r)) store).

End SubscriptionStore.

(* ===================================================================== *)
(** ** backend/routes/notifications.js: subscribe and unsubscribe        *)
(* ===================================================================== *)

Module NotificationRoutes.

Import SubscriptionStore.

(** The body of [POST /subscribe]. *)
Record SubscribeBody : Type := mkSubscribeBody {
  body_endpoint : option string;
  body_keys : option WebPushUtil.KeysArg;
  body_userAgent : option string
}.

(** [a || b] on strings that may be absent. *)
Definition or_else (a b : option string) : option string :=
  if WebPush.truthy a then a else b.

Section Routes.

Variable url_ok : string -> bool.

(** [POST /subscribe] for the authenticated [userId]: the response status
    and the collection afterwards.  [header_userAgent] is
    [req.headers['user-agent']], [newId] the [_id] of a document created by
    the request and [now] the time of its writes.  A [save()] that violates
    the unique index on [endpoint] throws and ends in the 500 branch. *)
Definition subscribe (userId : string) (body : SubscribeBody)
           (header_userAgent : option string) (newId : nat) (now : Z)
           (store : list Row) : Z * list Row :=
  let subscriptionData :=
    {| WebPushUtil.arg_endpoint := body_endpoint body;
       WebPushUtil.arg_keys := body_keys body |} in
  if negb (WebPushUtil.validateSubscription url_ok (Some subscriptionData))
  then (400, store)
  else
    match body_endpoint body, body_keys body with
    | Some endpoint, Some keys =>
        let p256dh := WebPush.spread "" (WebPushUtil.arg_p256dh keys) in
        let auth := WebPush.spread "" (WebPushUtil.arg_auth keys) in
        match findOne (fun r => String.eqb (row_owner r) userId
                                && String.eqb (Subscription.endpoint (row_doc r))
                                              endpoint) store with
        | Some existing =>
            let d := row_doc existing in
            let updated :=
              {| row_id := row_id existing;
                 row_owner := row_owner existing;
                 row_userAgent := body_userAgent body;
                 row_updatedAt := now;
                 row_doc :=
                   {| Subscription.userId := Subscription.userId d;
                      Subscription.endpoint := Subscription.endpoint d;
                      Subscription.p256dh := p256dh;
                      Subscription.auth := auth;
                      Subscription.isActive := true;
                      Subscription.lastNotificationSent :=
                        Subscription.lastNotificationSent d;
                      Subscription.failedAttempts := JS.Int 0;
                      Subscription.lastError := Subscription.lastError d |} |} in
            (200, replaceOne (row_id existing) updated store)
        | None =>
            let store1 :=
              match findByEndpoint endpoint store with
              | Some existingEndpoint =>
                  if negb (String.eqb (row_owner existingEndpoint) userId)
                  then deleteOne (fun r => Nat.eqb (row_id r)
                                                   (row_id existingEndpoint)) store
                  else store
              | None => store
              end in
            let newSubscription :=
              {| row_id := newId;
                 row_owner := userId;
                 row_userAgent := or_else (body_userAgent body) header_userAgent;
                 row_updatedAt := now;
                 row_doc := Subscription.fresh None endpoint p256dh auth |} in
            if existsb (fun r => String.eqb (Subscription.endpoint (row_doc r))
                                            endpoint) store1
            then (500, store1)
            else (201, (store1 ++ [newSubscription])%list)
        end
    | _, _ => (400, store)
    end.

(** [POST /unsubscribe] for the authenticated [userId]. *)
Definition unsubscribe (userId : string) (endpoint : option string)
           (store : list Row) : Z * list Row :=
  match endpoint with
  | None => (400, store)
  | Some e =>
      if String.eqb e "" then (400, store)
      else
        let p := fun r => String.eqb (Subscription.endpoint (row_doc r)) e
                          && String.eqb (row_owner r) userId in
        match findOne p store with
        | None => (404, store)
        | Some _ => (200, deleteOne p store)
        end
  end.

End Routes.

End NotificationRoutes.

(* ===================================================================== *)
(** ** backend/cron/notifications.js: one run of the reminder job        *)
(* ===================================================================== *)

Module Reminders.

(** What a run that got as far as sending leaves behind: the documents of
    the selected subscriptions after their bookkeeping, in order, and the
    two counters the run logs. *)
Record Outcome : Type := mkOutcome {
  documents : list Subscription.t;
  successCount : nat;
  failedCount : nat
}.

(** The options every run passes: [{ urgency: 'normal', TTL: 60 * 60 }]. *)
Definition runOptions : WebPush.OptionsArg :=
  {| WebPush.opt_TTL := Some (60 * 60);
     WebPush.opt_urgency := Some "normal";
     WebPush.opt_topic := None |}.

(** The payload of a run at [currentHour]:[currentMinute]; [timestamp] is
    [Date.now()]. *)
Definition reminderNotification (isTestMode : bool)
           (currentHour currentMinute timestamp : Z) : WebPushUtil.Notification :=
  WebPushUtil.createHydrationNotification timestamp
    {| WebPushUtil.opt_title :=
         Some (if isTestMode then "Test Water Reminder! 🧪💧" else "Drink Water! 💧");
       WebPushUtil.opt_body :=
         Some (if isTestMode then "Test notification - Stay Hydrated!"
               else "Stay Hydrated. Time to drink some water!");
       WebPushUtil.opt_icon := None;
       WebPushUtil.opt_badge := None;
       WebPushUtil.opt_tag :=
         Some (if isTestMode then "test-hydration-reminder" else "hydration-reminder");
       WebPushUtil.opt_requireInteraction := None;
       WebPushUtil.opt_silent := None;
       WebPushUtil.opt_data :=
         Some {| WebPushUtil.data_url := "/";
                 WebPushUtil.data_action := "hydration-reminder";
                 WebPushUtil.data_timestamp := timestamp;
                 WebPushUtil.data_hour := Some currentHour;
                 WebPushUtil.data_minute := Some currentMinute;
                 WebPushUtil.data_isTest := Some isTestMode |};
       WebPushUtil.opt_actions := None |}.

Section Run.

(** The world a run talks to: the users and the push service as before,
    [JSON.stringify] on payloads, the date [new Date()] gives while the
    [i]-th result is processed, and whether the [save()] of the [i]-th
    document resolves. *)
Variable users : string -> option User.t.
Variable env : WebPush.Env.
Variable webpush_sendNotification :
  nat -> option WebPush.PushSubscription -> string -> WebPush.Options ->
  WebPush.completion WebPush.Response.
Variable JSON_stringify : WebPushUtil.Notification -> string.
Variable date_at : nat -> Z.
Variable save_resolves : nat -> bool.

(** The body of the [for] loop at index [i]: the document after the
    bookkeeping call (none when [enabledSubscriptions[i]] is missing) and
    whether [successCount] was incremented; otherwise [failedCount] is,
    after [markAsFailed] or in the [catch].  The owner has no
    [lastNotificationAt] path, so the inner [if] of the success branch is
    skipped; the result of [handleFailedNotification] only feeds a log
    line. *)
Definition processResult (enabledSubscriptions : list Subscription.t)
           (i : nat) (entry : WebPush.BulkEntry)
  : option Subscription.t * bool :=
  match nth_error enabledSubscriptions i with
  | None => (None, false)
  | Some subscription =>
      match WebPush.result entry with
      | WebPush.Sent _ _ =>
          (Some (Subscription.markAsSuccessful (date_at i) subscription),
           save_resolves i)
      | WebPush.Failed error _ _ =>
          (Some (Subscription.markAsFailed subscription error), false)
      end
  end.

(** The loop body at index [i] written on the subscription at that index:
    the [i]-th send settled for [sub], then its bookkeeping. *)
Definition step (payload : string) (i : nat) (sub : Subscription.t)
  : option Subscription.t * bool :=
  match WebPush.outcome_of
          (WebPush.sendNotification env webpush_sendNotification i
             (Some (Cron.getWebPushFormat sub)) payload runOptions) with
  | WebPush.Sent _ _ =>
      (Some (Subscription.markAsSuccessful (date_at i) sub), save_resolves i)
  | WebPush.Failed error _ _ => (Some (Subscription.markAsFailed sub error), false)
  end.

(** The documents among the processed results. *)
Fixpoint present {A : Type} (xs : list (option A)) : list A :=
  match xs with
  | [] => []
  | Some x :: rest => x :: present rest
  | None :: rest => present rest
  end.

(** [sendHydrationReminders(isTestMode)] run at
    [currentHour]:[currentMinute] on the collection [store]; [None] when
    the run returns before sending. *)
Definition sendHydrationReminders (isTestMode : bool)
           (currentHour currentMinute timestamp : Z)
           (store : list SubscriptionStore.Row) : option Outcome :=
  let subscriptions := SubscriptionStore.getAllActiveSubscriptions users store in
  match subscriptions with
  | [] => None
  | _ :: _ =>
      let enabledSubscriptions :=
        Cron.enabledSubscriptions isTestMode currentHour currentMinute
                                  subscriptions in
      match enabledSubscriptions with
      | [] => None
      | _ :: _ =>
          let notification :=
            reminderNotification isTestMode currentHour currentMinute timestamp in
          let subscriptionsToSend :=
            map (fun sub => Some (Cron.getWebPushFormat sub)) enabledSubscriptions in
          match WebPush.sendBulkNotifications env webpush_sendNotification
                  subscriptionsToSend (JSON_stringify notification) runOptions with
          | WebPush.Threw _ => None
          | WebPush.Returned results =>
              let processed :=
                WebPush.mapi (processResult enabledSubscriptions) results in
              Some {| documents := present (map fst processed);
                      successCount :=
                        List.length (filter (fun p => snd p) processed);
                      failedCount :=
                        List.length (filter (fun p => negb (snd p)) processed) |}
          end
      end
  end.


(** [triggerManual(testMode)]. *)
Definition triggerManual (NODE_ENV : option string) (testMode : bool)
           (currentHour currentMinute timestamp : Z)
           (store : list SubscriptionStore.Row) : option Outcome :=
  if Cron.is_production NODE_ENV then None
  else sendHydrationReminders testMode currentHour currentMinute timestamp store.

End Run.

(** The operations the scheduler module offers on its timers. *)
Inductive Op : Type :=
| OpStart
| OpStop
| OpStartTestMode (NODE_ENV : option string)
| OpStartProductionMode.

Definition apply_op (st : Cron.State) (op : Op) : Cron.State :=
  match op with
  | OpStart => Cron.start st
  | OpStop => Cron.stop st
  | OpStartTestMode NODE_ENV => Cron.startTestMode NODE_ENV st
  | OpStartProductionMode => Cron.startProductionMode st
  end.

(** A sequence of calls, oldest first. *)
Definition run_ops (st : Cron.State) (ops : list Op) : Cron.State :=
  fold_left apply_op ops st.

End Reminders.

(* ===================================================================== *)
(** ** backend/verify-fixes.js: the copy of the due check it tests       *)
(* ===================================================================== *)

Module VerifyFixes.

(** The [shouldReceiveNotificationAtHour] of the mock user in
    [testNotificationFrequencyLogic]. *)
Definition shouldReceiveNotificationAtHour (this : User.t) (hour minute : Z)
  : bool :=
  if negb (User.notificationsEnabled this) then false
  else
    let startHour := User.notificationStartHour this in
    let endHour := User.notificationEndHour this in
    let frequency := JS.str_or (User.notificationFrequency this) "1hr" in
    let withinTimeWindow :=
      if endHour =? 0 then (hour >=? startHour) || (hour =? 0)
      else if startHour <=? endHour then (hour >=? startHour) && (hour <=? endHour)
      else (hour >=? startHour) || (hour <=? endHour) in
    if negb withinTimeWindow then false
    else if String.eqb frequency "30min" then (minute =? 0) || (minute =? 30)
    else if String.eqb frequency "2hr" then JS.rem_is_zero hour 2 && (minute =? 0)
    else minute =? 0.

End VerifyFixes.

(* ===================================================================== *)
(** ** backend/routes/auth.js: the notification part of PUT /profile     *)
(* ===================================================================== *)

Module AuthRoutes.






Section Profile.

(** [String.prototype.trim], and the schema's [maxlength] validator on
    [name], which [save()] runs on the new value. *)
Variable trim : string -> string.
Variable name_fits : string -> bool.


End Profile.


End AuthRoutes.

(* ===================================================================== *)
(** ** Properties of the due check                                       *)
(* ===================================================================== *)

(** Turns the boolean comparisons of a goal into arithmetic facts. *)
Ltac zbool :=
  rewrite ?Z.geb_leb in *;
  repeat match goal with
         | |- context [?a <=? ?b] => destruct (Z.leb_spec a b)
         | |- context [?a <? ?b] => destruct (Z.ltb_spec a b)
         | |- context [?a =? ?b] => destruct (Z.eqb_spec a b)
         end;
  cbn [andb orb negb].

Ltac zsolve :=
  zbool; try lia; try reflexivity; try discriminate;
  intuition (try lia; try discriminate; try reflexivity).

Section DueCheck.

Import User.

(** The window on hours of the day, read off the three branches. *)
Lemma withinTimeWindow_spec (startHour endHour h : Z) :
  withinTimeWindow startHour endHour h = true <->
  (endHour = 0 /\ startHour <= h < 24) \/
  (endHour <> 0 /\ startHour <= endHour /\ startHour <= h <= endHour) \/
  (endHour <> 0 /\ endHour < startHour /\ (startHour <= h \/ h <= endHour)).
Proof. unfold withinTimeWindow. zsolve. Qed.

(** A disabled user is never due. *)
Lemma disabled_never_due (u : t) (h m : Z) (isTestMode : bool) :
  notificationsEnabled u = false ->
  shouldReceiveNotificationAtHour u h m isTestMode = false.
Proof.
  intros Hoff. unfold shouldReceiveNotificationAtHour.
  now rewrite Hoff.
Qed.

(** For an enabled user the check is the window test followed by the
    frequency rule. *)
Lemma enabled_due (u : t) (h m : Z) (isTestMode : bool) :
  notificationsEnabled u = true ->
  shouldReceiveNotificationAtHour u h m isTestMode =
  withinTimeWindow (notificationStartHour u) (notificationEndHour u) h
  && frequencyRule isTestMode (JS.str_or (notificationFrequency u) "1hr") h m.
Proof.
  intros Hon. unfold shouldReceiveNotificationAtHour. rewrite Hon. cbn [negb].
  now destruct (withinTimeWindow _ _ h).
Qed.

(** At minute 0 the hourly rule fires in both tick modes. *)
Lemma hourly_rule_at_minute_0 (isTestMode : bool) (h : Z) :
  frequencyRule isTestMode "1hr" h 0 = true.
Proof. now destruct isTestMode. Qed.

(** The remainder of a minute of the hour by 120 is the minute itself. *)
Lemma rem_120_of_minute (m : Z) :
  0 <= m <= 59 -> JS.rem_is_zero m 120 = (m =? 0).
Proof.
  intros Hm. unfold JS.rem_is_zero. now rewrite Z.rem_small by lia.
Qed.

(** In production mode the half-hourly rule holds at minutes 0 and 30 of
    the hour and at no other minute. *)
Lemma half_hourly_rule_production (h m : Z) :
  frequencyRule false "30min" h m = true <-> m = 0 \/ m = 30.
Proof. cbn. zsolve. Qed.

End DueCheck.

(** C6. A user with window 22..2, notifications enabled and the hourly
    frequency is due at minute 0 exactly at the hours 22, 23, 0, 1 and 2 of
    the day, and is not due at any hour from 3 through 21; this holds in
    both tick modes. *)
Theorem window_wrap_22_to_2 (isTestMode : bool) (h : Z) :
  0 <= h <= 23 ->
  let u := User.mk true 22 2 "1hr" in
  (User.shouldReceiveNotificationAtHour u h 0 isTestMode = true <->
   h = 22 \/ h = 23 \/ h = 0 \/ h = 1 \/ h = 2) /\
  (3 <= h <= 21 ->
   User.shouldReceiveNotificationAtHour u h 0 isTestMode = false).
Proof.
  intros Hh u.
  assert (Hdue : User.shouldReceiveNotificationAtHour u h 0 isTestMode =
                 User.withinTimeWindow 22 2 h).
  { rewrite enabled_due by reflexivity. cbn [User.notificationStartHour
      User.notificationEndHour User.notificationFrequency u].
    change (JS.str_or "1hr" "1hr") with "1hr".
    rewrite hourly_rule_at_minute_0. apply andb_true_r. }
  rewrite Hdue. split.
  - rewrite withinTimeWindow_spec. lia.
  - intros Hout. apply not_true_is_false.
    rewrite withinTimeWindow_spec. lia.
Qed.

Lemma window_wrap_22_to_2_witness :
  0 <= 23 <= 23 /\
  User.shouldReceiveNotificationAtHour (User.mk true 22 2 "1hr") 23 0 false = true.
Proof.
  split; [lia |].
  apply (proj1 (window_wrap_22_to_2 false 23 ltac:(lia))).
  right. left. reflexivity.
Defined.

(** C7. With end hour 0 the window runs from the start hour through hour
    23: an enabled hourly user is due at minute 0 of hour [h] exactly when
    [h] is at or after the start hour, so hour 0 is outside the window for
    every start hour from 1 on.  For start hour 5 the user is due at 23:00
    and not due at 0:00. *)
Theorem window_ending_at_midnight (startHour h : Z) (isTestMode : bool) :
  0 <= startHour <= 23 ->
  0 <= h <= 23 ->
  (User.shouldReceiveNotificationAtHour
     (User.mk true startHour 0 "1hr") h 0 isTestMode = true <-> startHour <= h) /\
  (1 <= startHour ->
   User.shouldReceiveNotificationAtHour
     (User.mk true startHour 0 "1hr") 0 0 isTestMode = false) /\
  User.shouldReceiveNotificationAtHour
    (User.mk true 5 0 "1hr") 23 0 isTestMode = true /\
  User.shouldReceiveNotificationAtHour
    (User.mk true 5 0 "1hr") 0 0 isTestMode = false.
Proof.
  intros Hs Hh.
  assert (Hdue : forall s k,
             User.shouldReceiveNotificationAtHour
               (User.mk true s 0 "1hr") k 0 isTestMode =
             User.withinTimeWindow s 0 k).
  { intros s k. rewrite enabled_due by reflexivity.
    cbn [User.notificationStartHour User.notificationEndHour
         User.notificationFrequency].
    change (JS.str_or "1hr" "1hr") with "1hr".
    rewrite hourly_rule_at_minute_0. apply andb_true_r. }
  rewrite !Hdue. repeat split.
  - rewrite withinTimeWindow_spec. lia.
  - rewrite withinTimeWindow_spec. lia.
  - intros Hpos. apply not_true_is_false. rewrite withinTimeWindow_spec. lia.
Qed.

Lemma window_ending_at_midnight_witness :
  User.shouldReceiveNotificationAtHour (User.mk true 5 0 "1hr") 23 0 false = true /\
  User.shouldReceiveNotificationAtHour (User.mk true 5 0 "1hr") 0 0 false = false.
Proof.
  exact (proj2 (proj2 (window_ending_at_midnight 5 23 false
                         ltac:(lia) ltac:(lia)))).
Defined.

(** C9. When notifications are disabled the due check is false at every
    hour, every minute, for every frequency value and in both tick modes. *)
Theorem disabled_short_circuit (u : User.t) (h m : Z) (isTestMode : bool) :
  User.notificationsEnabled u = false ->
  0 <= h <= 23 -> 0 <= m <= 59 ->
  User.shouldReceiveNotificationAtHour u h m isTestMode = false.
Proof.
  intros Hoff _ _. now apply disabled_never_due.
Qed.

Lemma disabled_short_circuit_witness :
  User.shouldReceiveNotificationAtHour (User.mk false 0 23 "1min") 12 0 true = false.
Proof.
  apply (disabled_short_circuit (User.mk false 0 23 "1min") 12 0 true);
    [reflexivity | lia | lia].
Defined.

(** C3, as stated, fails at minute 0: the remainder of 0 by 120 is 0, so
    the test-mode two-hourly rule holds there and an enabled two-hourly
    user inside the window is due on that test-mode tick. *)
Lemma two_hourly_test_rule_true_at_minute_0 :
  ~ (forall m, 0 <= m <= 59 -> User.frequencyRule true "2hr" 10 m = false) /\
  User.shouldReceiveNotificationAtHour (User.mk true 5 0 "2hr") 10 0 true = true.
Proof.
  split; [| reflexivity].
  intros Hnever. specialize (Hnever 0 ltac:(lia)). discriminate Hnever.
Qed.

(** C3, amended. For every minute of the hour the test-mode two-hourly
    rule holds exactly at minute 0; an enabled two-hourly user whose window
    contains the hour is therefore due in test mode at minute 0 of that
    hour and at no other minute. *)
Theorem two_hourly_test_rule (u : User.t) (h m : Z) :
  0 <= m <= 59 ->
  User.notificationsEnabled u = true ->
  User.notificationFrequency u = "2hr" ->
  User.withinTimeWindow (User.notificationStartHour u)
                        (User.notificationEndHour u) h = true ->
  User.frequencyRule true "2hr" h m = (m =? 0) /\
  (User.shouldReceiveNotificationAtHour u h m true = true <-> m = 0).
Proof.
  intros Hm Hon Hfreq Hwin.
  assert (Hrule : User.frequencyRule true "2hr" h m = (m =? 0)).
  { cbn. now apply rem_120_of_minute. }
  split; [exact Hrule |].
  rewrite enabled_due by exact Hon.
  rewrite Hwin, Hfreq. change (JS.str_or "2hr" "1hr") with "2hr".
  rewrite Hrule. cbn [andb]. apply Z.eqb_eq.
Qed.

Lemma two_hourly_test_rule_witness :
  User.frequencyRule true "2hr" 10 30 = (30 =? 0) /\
  (User.shouldReceiveNotificationAtHour (User.mk true 5 0 "2hr") 10 30 true = true
   <-> 30 = 0).
Proof.
  apply (two_hourly_test_rule (User.mk true 5 0 "2hr") 10 30);
    [lia | reflexivity | reflexivity | reflexivity].
Defined.

(* ===================================================================== *)
(** ** Properties of the failure bookkeeping                             *)
(* ===================================================================== *)

Section Bookkeeping.

Import Subscription.

(** One more failure is appended at the end of the sequence. *)
Lemma markAsFailed_all_snoc (s : t) (errors : list string) (e : string) :
  markAsFailed_all s (errors ++ [e]) = markAsFailed (markAsFailed_all s errors) e.
Proof. unfold markAsFailed_all. now rewrite fold_left_app. Qed.

(** A failure on a document holding a count [n]. *)
Lemma markAsFailed_count (s : t) (e : string) (n : Z) :
  failedAttempts s = JS.Int n ->
  failedAttempts (markAsFailed s e) = JS.Int (n + 1) /\
  isActive (markAsFailed s e) = isActive s && (n + 1 <? 5).
Proof.
  intros Hn. unfold markAsFailed. rewrite Hn. cbn.
  split; [reflexivity |].
  rewrite Z.geb_leb.
  destruct (Z.leb_spec 5 (n + 1)), (Z.ltb_spec (n + 1) 5);
    try lia; now destruct (isActive s).
Qed.

(** After [k] consecutive failures on a fresh document the counter is [k]
    and the document is active exactly while [k] is below 5. *)
Lemma consecutive_failures (s : t) (errors : list string) :
  isActive s = true ->
  failedAttempts s = JS.Int 0 ->
  failedAttempts (markAsFailed_all s errors) = JS.Int (Z.of_nat (List.length errors)) /\
  isActive (markAsFailed_all s errors) = (Z.of_nat (List.length errors) <? 5).
Proof.
  intros Hact Hzero.
  induction errors as [| e errors IH] using rev_ind.
  - cbn. now rewrite Hact, Hzero.
  - destruct IH as [IHn IHa].
    rewrite markAsFailed_all_snoc, length_app, Nat2Z.inj_add. cbn [List.length].
    destruct (markAsFailed_count _ e _ IHn) as [Hn Ha].
    rewrite Hn, Ha, IHa. split; [reflexivity |].
    change (Z.of_nat 1) with 1.
    destruct (Z.ltb_spec (Z.of_nat (List.length errors)) 5),
             (Z.ltb_spec (Z.of_nat (List.length errors) + 1) 5);
      try lia; reflexivity.
Qed.

(** The counter invariant holds on fresh documents and is kept by both
    writers. *)
Lemma counter_ok_fresh owner ep k a :
  counter_ok (failedAttempts (fresh owner ep k a)).
Proof. cbn. lia. Qed.

Lemma counter_ok_markAsSuccessful now (s : t) :
  counter_ok (failedAttempts (markAsSuccessful now s)).
Proof. cbn. lia. Qed.

Lemma counter_ok_markAsFailed (s : t) (e : string) :
  counter_ok (failedAttempts s) ->
  counter_ok (failedAttempts (markAsFailed s e)).
Proof.
  unfold markAsFailed. destruct (failedAttempts s); cbn; lia.
Qed.

(** Whatever the counter held, it is a number after a failure. *)
Lemma markAsFailed_is_number (s : t) (e : string) :
  exists n, failedAttempts (markAsFailed s e) = JS.Int n.
Proof.
  unfold markAsFailed. destruct (failedAttempts s); cbn; eauto.
Qed.

End Bookkeeping.

(** C4. On a fresh subscription (active, no failed attempts) five
    consecutive [markAsFailed] calls leave [isActive] true after each of the
    first four and set it to false on the fifth; the counter is then 5, and
    every save passed the schema bound on the way. *)
Theorem deactivation_on_fifth_failure
        (s : Subscription.t) (errors : list string) :
  Subscription.isActive s = true ->
  Subscription.failedAttempts s = JS.Int 0 ->
  List.length errors = 5%nat ->
  (forall k, (k < 5)%nat ->
     Subscription.isActive
       (Subscription.markAsFailed_all s (firstn k errors)) = true) /\
  Subscription.isActive (Subscription.markAsFailed_all s errors) = false /\
  Subscription.failedAttempts (Subscription.markAsFailed_all s errors) = JS.Int 5 /\
  (forall k, (k <= 5)%nat ->
     Subscription.failedAttempts_max_ok
       (Subscription.markAsFailed_all s (firstn k errors)) = true).
Proof.
  intros Hact Hzero Hlen.
  assert (Hk : forall k, (k <= 5)%nat -> List.length (firstn k errors) = k).
  { intros k Hle. rewrite length_firstn. lia. }
  repeat split.
  - intros k Hlt.
    destruct (consecutive_failures s (firstn k errors) Hact Hzero) as [_ Ha].
    rewrite Ha, Hk by lia. apply Z.ltb_lt. lia.
  - destruct (consecutive_failures s errors Hact Hzero) as [_ Ha].
    rewrite Ha, Hlen. reflexivity.
  - destruct (consecutive_failures s errors Hact Hzero) as [Hn _].
    rewrite Hn, Hlen. reflexivity.
  - intros k Hle.
    destruct (consecutive_failures s (firstn k errors) Hact Hzero) as [Hn _].
    unfold Subscription.failedAttempts_max_ok. rewrite Hn, Hk by lia.
    apply Z.leb_le. lia.
Qed.

Lemma deactivation_on_fifth_failure_witness :
  let s := Subscription.fresh None "https://push.example/1" "k" "a" in
  let errors := ["Gone"; "Gone"; "Gone"; "Gone"; "Gone"] in
  Subscription.isActive (Subscription.markAsFailed_all s (firstn 4 errors)) = true /\
  Subscription.isActive (Subscription.markAsFailed_all s errors) = false.
Proof.
  intros s errors.
  destruct (deactivation_on_fifth_failure s errors eq_refl eq_refl eq_refl)
    as [Hfirst [Hfifth _]].
  split; [apply Hfirst; lia | exact Hfifth].
Defined.

(** C8. [markAsSuccessful] sends every document to the same tracked
    fields: no failed attempts, no last error, active.  Two documents agree
    on them after the call, and a second call changes none of them. *)
Theorem success_bookkeeping_idempotent
        (s s' : Subscription.t) (now now' : Z) :
  Subscription.tracked (Subscription.markAsSuccessful now s)
    = (JS.Int 0, None, true) /\
  Subscription.tracked (Subscription.markAsSuccessful now s)
    = Subscription.tracked (Subscription.markAsSuccessful now' s') /\
  Subscription.tracked
    (Subscription.markAsSuccessful now' (Subscription.markAsSuccessful now s))
    = Subscription.tracked (Subscription.markAsSuccessful now s).
Proof. repeat split. Qed.

(** C10. [markAsFailed] first replaces a counter that is not a number by
    0.  On a document whose counter is a count or not a number, the counter
    after the call is an integer that is at least 1 (exactly 1 when it was
    not a number), and the document is inactive afterwards whenever that
    integer has reached 5. *)
Theorem markAsFailed_counter_total (s : Subscription.t) (e : string) :
  Subscription.counter_ok (Subscription.failedAttempts s) ->
  exists n,
    Subscription.failedAttempts (Subscription.markAsFailed s e) = JS.Int n /\
    1 <= n /\
    (JS.isNaN (Subscription.failedAttempts s) = true -> n = 1) /\
    Subscription.isActive (Subscription.markAsFailed s e)
      = Subscription.isActive s && (n <? 5).
Proof.
  intros Hok. unfold Subscription.markAsFailed.
  destruct (Subscription.failedAttempts s) as [| | | n]; cbn in *.
  - exists 1. repeat split; try lia. now rewrite andb_true_r.
  - exists 1. repeat split; try lia. now rewrite andb_true_r.
  - exists 1. repeat split; try lia. now rewrite andb_true_r.
  - exists (n + 1). repeat split; try lia; try discriminate.
    rewrite Z.geb_leb.
    destruct (Z.leb_spec 5 (n + 1)), (Z.ltb_spec (n + 1) 5);
      try lia; now destruct (Subscription.isActive s).
Qed.

Lemma markAsFailed_counter_total_witness :
  let s := Subscription.mk None "https://push.example/1" "k" "a"
                           true None JS.NaN None in
  exists n,
    Subscription.failedAttempts (Subscription.markAsFailed s "Gone") = JS.Int n /\
    1 <= n /\
    (JS.isNaN (Subscription.failedAttempts s) = true -> n = 1) /\
    Subscription.isActive (Subscription.markAsFailed s "Gone")
      = Subscription.isActive s && (n <? 5).
Proof.
  intros s. apply (markAsFailed_counter_total s "Gone"). exact I.
Defined.

(* ===================================================================== *)
(** ** Properties of the delivery fan-out                                *)
(* ===================================================================== *)

Section FanOut.

Import WebPush.

Lemma mapi_from_length {A B} (f : nat -> A -> B) (xs : list A) (i : nat) :
  List.length (mapi_from i f xs) = List.length xs.
Proof.
  revert i. induction xs as [| x xs IH]; intros i; cbn; [reflexivity |].
  now rewrite IH.
Qed.

Lemma mapi_from_nth_error {A B} (f : nat -> A -> B) (xs : list A) (i k : nat) :
  nth_error (mapi_from i f xs) k = option_map (f (i + k)%nat) (nth_error xs k).
Proof.
  revert i k. induction xs as [| x xs IH]; intros i k.
  - now destruct k.
  - destruct k as [| k]; cbn.
    + now rewrite Nat.add_0_r.
    + rewrite IH. now rewrite Nat.add_succ_r.
Qed.

Lemma mapi_nth_error {A B} (f : nat -> A -> B) (xs : list A) (k : nat) :
  nth_error (mapi f xs) k = option_map (f k) (nth_error xs k).
Proof. unfold mapi. now rewrite mapi_from_nth_error. Qed.

Variable env : Env.

(** The entry [sendBulkNotifications] produces at position [i] is made
    from the subscription at [i] and the answer to the [i]-th request
    alone. *)
Lemma bulk_entry_at
      (transport : nat -> option PushSubscription -> string -> Options ->
                   completion Response)
      (subscriptions : list (option PushSubscription))
      (payload : string) (options : OptionsArg) (i : nat)
      (sub : option PushSubscription) :
  nth_error subscriptions i = Some sub ->
  exists entries,
    sendBulkNotifications env transport subscriptions payload options
      = Returned entries /\
    nth_error entries i =
      Some {| subscription := sub;
              result := outcome_of
                          (sendNotification env transport i sub payload options) |}.
Proof.
  intros Hi. eexists. split; [reflexivity |].
  rewrite !mapi_nth_error, Hi. cbn.
  unfold at_index. now rewrite Hi.
Qed.

Lemma bulk_length
      (transport : nat -> option PushSubscription -> string -> Options ->
                   completion Response)
      (subscriptions : list (option PushSubscription))
      (payload : string) (options : OptionsArg) :
  exists entries,
    sendBulkNotifications env transport subscriptions payload options
      = Returned entries /\
    List.length entries = List.length subscriptions.
Proof.
  eexists. split; [reflexivity |].
  unfold mapi. now rewrite !mapi_from_length.
Qed.

(** What one send settles to: a success carrying the status of the
    transport's response, or a failure carrying an error message. *)
Lemma outcome_shape
      (transport : nat -> option PushSubscription -> string -> Options ->
                   completion Response)
      (i : nat) (sub : option PushSubscription)
      (payload : string) (options : OptionsArg) :
  let r := outcome_of (sendNotification env transport i sub payload options) in
  (exists response,
      transport i sub payload (finalOptions options) = Returned response /\
      r = Sent (resp_statusCode response) (resp_headers response))
  \/
  (exists error statusCode endpoint,
      r = Failed error statusCode endpoint /\ success r = false).
Proof.
  unfold sendNotification, on_error.
  destruct (negb (truthy (VAPID_PUBLIC_KEY env))
            || negb (truthy (VAPID_PRIVATE_KEY env))).
  - right. destruct sub; cbn; eauto.
  - destruct (transport i sub payload (finalOptions options)) as [response | e].
    + left. eauto.
    + right. destruct sub; cbn; eauto.
Qed.

End FanOut.

(** C5. For every list of subscriptions [sendBulkNotifications] returns
    (it does not throw) an array with one entry per subscription, in order.
    The entry at a position is a success carrying the transport's status or
    a failure carrying an error message, and it is determined by the
    subscription and the transport's answer at that position alone: another
    run that differs at the other positions, in the subscriptions or in how
    their sends end, yields the same entry there. *)
Theorem fan_out_settles_every_subscription
        (env : WebPush.Env)
        (transport transport' :
           nat -> option WebPush.PushSubscription -> string ->
           WebPush.Options -> WebPush.completion WebPush.Response)
        (subscriptions subscriptions' : list (option WebPush.PushSubscription))
        (payload : string) (options : WebPush.OptionsArg) :
  exists entries,
    WebPush.sendBulkNotifications env transport subscriptions payload options
      = WebPush.Returned entries /\
    List.length entries = List.length subscriptions /\
    (forall i sub,
        nth_error subscriptions i = Some sub ->
        exists entry,
          nth_error entries i = Some entry /\
          WebPush.subscription entry = sub /\
          ((exists response,
               transport i sub payload (WebPush.finalOptions options)
                 = WebPush.Returned response /\
               WebPush.result entry
                 = WebPush.Sent (WebPush.resp_statusCode response)
                                (WebPush.resp_headers response))
           \/
           (exists error statusCode endpoint,
               WebPush.result entry = WebPush.Failed error statusCode endpoint /\
               WebPush.success (WebPush.result entry) = false))) /\
    (forall i entries',
        nth_error subscriptions' i = nth_error subscriptions i ->
        (forall sub p o, transport' i sub p o = transport i sub p o) ->
        WebPush.sendBulkNotifications env transport' subscriptions' payload options
          = WebPush.Returned entries' ->
        nth_error entries' i = nth_error entries i).
Proof.
  destruct (bulk_length env transport subscriptions payload options)
    as [entries [Hrun Hlen]].
  exists entries. repeat split; trivial.
  - intros i sub Hi.
    destruct (bulk_entry_at env transport subscriptions payload options i sub Hi)
      as [entries0 [Hrun0 Hentry]].
    rewrite Hrun in Hrun0. injection Hrun0 as <-.
    eexists. split; [exact Hentry |]. split; [reflexivity |].
    apply outcome_shape.
  - intros i entries' Hsame Hanswer Hrun'.
    destruct (nth_error subscriptions i) as [sub |] eqn:Hi.
    + destruct (bulk_entry_at env transport subscriptions payload options
                              i sub Hi) as [e0 [Hr0 He0]].
      destruct (bulk_entry_at env transport' subscriptions' payload options
                              i sub Hsame) as [e1 [Hr1 He1]].
      rewrite Hrun in Hr0. injection Hr0 as <-.
      rewrite Hrun' in Hr1. injection Hr1 as <-.
      rewrite He0, He1. unfold WebPush.sendNotification.
      now rewrite Hanswer.
    + destruct (bulk_length env transport' subscriptions' payload options)
        as [e1 [Hr1 Hlen1]].
      rewrite Hrun' in Hr1. injection Hr1 as <-.
      apply nth_error_None in Hi, Hsame.
      transitivity (@None WebPush.BulkEntry).
      * apply nth_error_None. lia.
      * symmetry. apply nth_error_None. lia.
Qed.

Lemma fan_out_settles_every_subscription_witness :
  let env := WebPush.mkEnv (Some "public") (Some "private") in
  let transport (i : nat) (sub : option WebPush.PushSubscription)
                (p : string) (o : WebPush.Options) :=
    match i with
    | 1%nat => WebPush.Threw (WebPush.mkError "Received unexpected response code"
                                              (Some 410))
    | _ => WebPush.Returned (WebPush.mkResponse 201 [])
    end in
  let a := Some (WebPush.mkPush "https://push.example/a" "ka" "aa") in
  let b := Some (WebPush.mkPush "https://push.example/b" "kb" "ab") in
  let c := Some (WebPush.mkPush "https://push.example/c" "kc" "ac") in
  exists entries,
    WebPush.sendBulkNotifications env transport [a; b; c] "{}" WebPush.noOptions
      = WebPush.Returned entries /\
    List.length entries = 3%nat /\
    exists entry, nth_error entries 1 = Some entry /\ WebPush.subscription entry = b.
Proof.
  intros env transport a b c.
  destruct (fan_out_settles_every_subscription
              env transport transport [a; b; c] [a; b; c] "{}" WebPush.noOptions)
    as [entries [Hrun [Hlen [Hentry _]]]].
  exists entries. split; [exact Hrun |]. split; [exact Hlen |].
  destruct (Hentry 1%nat b eq_refl) as [entry [Hnth [Hsub _]]].
  exists entry. split; assumption.
Defined.

(** Three subscriptions, the second send throws: three outcomes come back,
    the first and third successes with the transport's status, the second a
    failure with the error's message. *)
Example fan_out_isolation_throw :
  let env := WebPush.mkEnv (Some "public") (Some "private") in
  let transport (i : nat) (sub : option WebPush.PushSubscription)
                (p : string) (o : WebPush.Options) :=
    match i with
    | 1%nat => WebPush.Threw (WebPush.mkError "Received unexpected response code"
                                              (Some 410))
    | _ => WebPush.Returned (WebPush.mkResponse 201 [])
    end in
  let a := Some (WebPush.mkPush "https://push.example/a" "ka" "aa") in
  let b := Some (WebPush.mkPush "https://push.example/b" "kb" "ab") in
  let c := Some (WebPush.mkPush "https://push.example/c" "kc" "ac") in
  WebPush.sendBulkNotifications env transport [a; b; c] "{}" WebPush.noOptions
  = WebPush.Returned
      [ WebPush.mkEntry a (WebPush.Sent 201 []);
        WebPush.mkEntry b (WebPush.Failed "Received unexpected response code"
                                          (Some 410)
                                          (Some "https://push.example/b"));
        WebPush.mkEntry c (WebPush.Sent 201 []) ].
Proof. reflexivity. Qed.

(** Three subscriptions, the second one missing: its send rejects (the
    error handler itself throws), and the rejection becomes a failure
    outcome while the other two succeed. *)
Example fan_out_isolation_reject :
  let env := WebPush.mkEnv (Some "public") (Some "private") in
  let transport (i : nat) (sub : option WebPush.PushSubscription)
                (p : string) (o : WebPush.Options) :=
    match sub with
    | Some _ => WebPush.Returned (WebPush.mkResponse 201 [])
    | None => WebPush.Threw
                (WebPush.mkError
                   "You must pass in a subscription with at least an endpoint."
                   None)
    end in
  let a := Some (WebPush.mkPush "https://push.example/a" "ka" "aa") in
  let c := Some (WebPush.mkPush "https://push.example/c" "kc" "ac") in
  WebPush.sendBulkNotifications env transport [a; None; c] "{}" WebPush.noOptions
  = WebPush.Returned
      [ WebPush.mkEntry a (WebPush.Sent 201 []);
        WebPush.mkEntry None
          (WebPush.Failed
             "Cannot read properties of undefined (reading 'endpoint')"
             None None);
        WebPush.mkEntry c (WebPush.Sent 201 []) ].
Proof. reflexivity. Qed.

(* ===================================================================== *)
(** ** Properties of the scheduler                                       *)
(* ===================================================================== *)

Section Scheduler.

Import Cron.

(** A production tick passes minute 0 to the due check whatever the clock
    shows, so its selection does not depend on the current minute. *)
Lemma production_tick_ignores_minute (h m m' : Z) (subs : list Subscription.t) :
  enabledSubscriptions false h m subs = enabledSubscriptions false h m' subs.
Proof. reflexivity. Qed.

(** A test tick passes the clock's minute on. *)
Lemma test_tick_uses_minute (h m : Z) (sub : Subscription.t) (u : User.t) :
  Subscription.userId sub = Some u ->
  enabledSubscriptions true h m [sub] =
  if User.shouldReceiveNotificationAtHour u h m true then [sub] else [].
Proof. intros Hu. cbn. now rewrite Hu. Qed.

(** [stop] leaves nothing scheduled, and is idempotent. *)
Lemma stop_clears (st : State) :
  tick_modes (stop st) = [] /\ stop (stop st) = stop st.
Proof. split; reflexivity. Qed.

(** No operation of the module ever sets [testCronJob]. *)
Lemma testCronJob_never_set (NODE_ENV : option string) (st : State) :
  testCronJob st = None ->
  testCronJob (start st) = None /\
  testCronJob (stop st) = None /\
  testCronJob (startTestMode NODE_ENV st) = None /\
  testCronJob (startProductionMode st) = None.
Proof.
  intros Hnone. unfold startTestMode, startProductionMode, start, stop.
  destruct (is_production NODE_ENV), (cronJob st); cbn; auto.
Qed.

End Scheduler.

(** C1 (the code departs from it). On a production tick at 10:15 a
    subscription whose owner has notifications enabled, window 5..0 and
    the 30-minute frequency is selected for delivery, although the due
    check itself rejects minute 15 for that owner: the tick hands minute 0
    to the due check in place of the clock's minute. *)
Theorem production_tick_selects_half_hourly_at_minute_15 :
  let u := User.mk true 5 0 "30min" in
  let sub := Subscription.fresh (Some u) "https://push.example/1" "k" "a" in
  Cron.enabledSubscriptions false 10 15 [sub] = [sub] /\
  Cron.enabledSubscriptions false 10 45 [sub] = [sub] /\
  User.shouldReceiveNotificationAtHour u 10 15 false = false /\
  User.shouldReceiveNotificationAtHour u 10 45 false = false.
Proof. repeat split. Qed.

(** C2 (the code departs from it). Outside production, [startTestMode]
    on any scheduler state schedules the production task only: the status
    report shows the test ticker as not running and the production ticker as
    running, and the ticks that follow call [sendHydrationReminders] in
    production mode. *)
Theorem startTestMode_starts_production_ticker
        (NODE_ENV : option string) (st : Cron.State) :
  Cron.is_production NODE_ENV = false ->
  let st' := Cron.startTestMode NODE_ENV st in
  Cron.isRunning (Cron.test (Cron.getStatus st')) = false /\
  Cron.isRunning (Cron.production (Cron.getStatus st')) = true /\
  Cron.tick_modes st' = [false].
Proof.
  intros Hdev st'. subst st'. unfold Cron.startTestMode.
  rewrite Hdev. repeat split.
Qed.

Lemma startTestMode_starts_production_ticker_witness :
  let st' := Cron.startTestMode (Some "development") Cron.initial in
  Cron.isRunning (Cron.test (Cron.getStatus st')) = false /\
  Cron.isRunning (Cron.production (Cron.getStatus st')) = true /\
  Cron.tick_modes st' = [false].
Proof.
  apply (startTestMode_starts_production_ticker (Some "development") Cron.initial).
  reflexivity.
Defined.

(* ===================================================================== *)
(** ** Further properties of the due check                               *)
(* ===================================================================== *)

Section DueCheckMore.

Import User.

(** The remainder by 30 of a minute of the hour. *)
Lemma rem_30_of_minute (m : Z) :
  0 <= m <= 59 -> JS.rem_is_zero m 30 = (m =? 0) || (m =? 30).
Proof.
  intros Hm. unfold JS.rem_is_zero.
  rewrite Z.rem_mod_nonneg by lia.
  destruct (Z.eqb_spec (m mod 30) 0) as [H0 | H0];
    destruct (Z.eqb_spec m 0), (Z.eqb_spec m 30); cbn; try reflexivity;
      exfalso; subst; cbn in *; try lia;
      revert H0; Z.div_mod_to_equations; lia.
Qed.

Lemma rem_60_of_minute (m : Z) :
  0 <= m <= 59 -> JS.rem_is_zero m 60 = (m =? 0).
Proof.
  intros Hm. unfold JS.rem_is_zero. now rewrite Z.rem_small by lia.
Qed.

(** A frequency outside the three named cases takes the [default] body. *)
Lemma frequencyRule_default (isTestMode : bool) (f : string) (h m : Z) :
  f <> "1min" -> f <> "30min" -> f <> "2hr" ->
  frequencyRule isTestMode f h m = frequencyRule isTestMode "1hr" h m.
Proof.
  intros H1 H30 H2. unfold frequencyRule.
  apply String.eqb_neq in H1, H30, H2. rewrite H1, H30, H2.
  reflexivity.
Qed.

(** The cases of a frequency string. *)
Lemma frequency_cases (f : string) :
  f = "1min" \/ f = "30min" \/ f = "2hr" \/
  (f <> "1min" /\ f <> "30min" /\ f <> "2hr").
Proof.
  destruct (String.eqb_spec f "1min"); [now left |].
  destruct (String.eqb_spec f "30min"); [now right; left |].
  destruct (String.eqb_spec f "2hr"); [now right; right; left |].
  now right; right; right.
Qed.

End DueCheckMore.

(** X1. In production mode nobody is due off the hour or half hour: when
    the due check holds the minute is 0, or it is 30 and the user's
    frequency is the 30-minute one. *)
Theorem production_due_only_on_the_half_hour (u : User.t) (h m : Z) :
  User.shouldReceiveNotificationAtHour u h m false = true ->
  m = 0 \/ (m = 30 /\ User.notificationFrequency u = "30min").
Proof.
  unfold User.shouldReceiveNotificationAtHour.
  destruct (User.notificationsEnabled u); cbn [negb]; [| discriminate].
  destruct (User.withinTimeWindow _ _ h); cbn [negb]; [| discriminate].
  unfold JS.str_or.
  destruct (String.eqb_spec (User.notificationFrequency u) "") as [He | He].
  - cbn. intros H. apply Z.eqb_eq in H. now left.
  - cbv iota.
    destruct (frequency_cases (User.notificationFrequency u))
      as [-> | [-> | [-> | [H1 [H30 H2]]]]].
    + cbn. intros H. apply Z.eqb_eq in H. now left.
    + cbn. intros H. apply orb_true_iff in H. destruct H as [H | H];
        apply Z.eqb_eq in H; [now left | now right].
    + cbn. intros H. apply andb_true_iff in H. destruct H as [_ H].
      apply Z.eqb_eq in H. now left.
    + rewrite frequencyRule_default by assumption.
      cbn. intros H. apply Z.eqb_eq in H. now left.
Qed.

Lemma production_due_only_on_the_half_hour_witness :
  30 = 0 \/ (30 = 30 /\ User.notificationFrequency (User.mk true 9 17 "30min") = "30min").
Proof.
  apply (production_due_only_on_the_half_hour (User.mk true 9 17 "30min") 9 30).
  reflexivity.
Defined.

(** X2. On the minutes of an hour the test-mode due check and the
    production one agree for every user whose frequency is neither the
    one-minute nor the two-hour one. *)
Theorem test_mode_agrees_with_production (u : User.t) (h m : Z) :
  0 <= m <= 59 ->
  User.notificationFrequency u <> "1min" ->
  User.notificationFrequency u <> "2hr" ->
  User.shouldReceiveNotificationAtHour u h m true
  = User.shouldReceiveNotificationAtHour u h m false.
Proof.
  intros Hm H1 H2. unfold User.shouldReceiveNotificationAtHour.
  destruct (User.notificationsEnabled u); cbn [negb]; [| reflexivity].
  destruct (User.withinTimeWindow _ _ h); cbn [negb]; [| reflexivity].
  unfold JS.str_or.
  destruct (String.eqb_spec (User.notificationFrequency u) "") as [He | He].
  - cbn. now apply rem_60_of_minute.
  - cbv iota.
    destruct (frequency_cases (User.notificationFrequency u))
      as [E | [E | [E | [_ [H30 _]]]]]; try contradiction.
    + rewrite E. cbn. now apply rem_30_of_minute.
    + rewrite !(frequencyRule_default _ (User.notificationFrequency u))
        by assumption.
      cbn. now apply rem_60_of_minute.
Qed.

Lemma test_mode_agrees_with_production_witness :
  User.shouldReceiveNotificationAtHour (User.mk true 9 17 "30min") 9 30 true
  = User.shouldReceiveNotificationAtHour (User.mk true 9 17 "30min") 9 30 false.
Proof.
  apply (test_mode_agrees_with_production (User.mk true 9 17 "30min") 9 30);
    [lia | discriminate | discriminate].
Defined.

(** X3. A frequency that is empty, or any string other than the three
    named ones, is treated as the hourly frequency in both tick modes. *)
Theorem unknown_frequency_is_hourly
        (enabled : bool) (startHour endHour : Z) (f : string)
        (h m : Z) (isTestMode : bool) :
  f <> "1min" -> f <> "30min" -> f <> "2hr" ->
  User.shouldReceiveNotificationAtHour
    (User.mk enabled startHour endHour f) h m isTestMode
  = User.shouldReceiveNotificationAtHour
      (User.mk enabled startHour endHour "1hr") h m isTestMode.
Proof.
  intros H1 H30 H2. unfold User.shouldReceiveNotificationAtHour. cbn.
  destruct enabled; cbn [negb]; [| reflexivity].
  destruct (User.withinTimeWindow startHour endHour h); cbn [negb];
    [| reflexivity].
  unfold JS.str_or. destruct (String.eqb_spec f ""); cbn; [reflexivity |].
  now apply frequencyRule_default.
Qed.

Lemma unknown_frequency_is_hourly_witness :
  User.shouldReceiveNotificationAtHour (User.mk true 9 17 "") 9 0 false
  = User.shouldReceiveNotificationAtHour (User.mk true 9 17 "1hr") 9 0 false.
Proof.
  apply (unknown_frequency_is_hourly true 9 17 "" 9 0 false); discriminate.
Defined.

(** X4. An end hour of 0 means the same as an end hour of 23: for every
    start hour up to 23 the two users are due at exactly the same hours
    and minutes, in both tick modes. *)
Theorem end_hour_0_is_end_hour_23
        (enabled : bool) (startHour : Z) (f : string)
        (h m : Z) (isTestMode : bool) :
  startHour <= 23 ->
  User.shouldReceiveNotificationAtHour
    (User.mk enabled startHour 0 f) h m isTestMode
  = User.shouldReceiveNotificationAtHour
      (User.mk enabled startHour 23 f) h m isTestMode.
Proof.
  intros Hs. unfold User.shouldReceiveNotificationAtHour.
  cbn [User.notificationsEnabled User.notificationStartHour
       User.notificationEndHour User.notificationFrequency].
  assert (Hwin : User.withinTimeWindow startHour 0 h
                 = User.withinTimeWindow startHour 23 h).
  { unfold User.withinTimeWindow. cbn. zsolve. }
  now rewrite Hwin.
Qed.

Lemma end_hour_0_is_end_hour_23_witness :
  User.shouldReceiveNotificationAtHour (User.mk true 5 0 "1hr") 23 0 false
  = User.shouldReceiveNotificationAtHour (User.mk true 5 23 "1hr") 23 0 false.
Proof.
  apply (end_hour_0_is_end_hour_23 true 5 "1hr" 23 0 false). lia.
Defined.

(** X5. The copy of the due check that verify-fixes.js tests agrees with
    the model's production check at every hour of the day except hour 0 of
    a window that ends at 0 and starts later: there the model rejects the
    hour and the copy accepts it. *)
Theorem verify_fixes_copy_differs_at_midnight (u : User.t) (h m : Z) :
  0 <= h <= 23 ->
  (~ (User.notificationEndHour u = 0 /\ h = 0 /\ 0 < User.notificationStartHour u) ->
   VerifyFixes.shouldReceiveNotificationAtHour u h m
   = User.shouldReceiveNotificationAtHour u h m false) /\
  (User.notificationEndHour u = 0 -> h = 0 -> 0 < User.notificationStartHour u ->
   User.shouldReceiveNotificationAtHour u h m false = false /\
   VerifyFixes.shouldReceiveNotificationAtHour u h m
   = User.notificationsEnabled u
     && User.frequencyRule false (JS.str_or (User.notificationFrequency u) "1hr")
                           h m).
Proof.
  intros Hh. split.
  - intros Hnot.
    unfold VerifyFixes.shouldReceiveNotificationAtHour,
           User.shouldReceiveNotificationAtHour.
    destruct (User.notificationsEnabled u); cbn [negb]; [| reflexivity].
    assert (Hwin :
      (if User.notificationEndHour u =? 0
       then (h >=? User.notificationStartHour u) || (h =? 0)
       else if User.notificationStartHour u <=? User.notificationEndHour u
            then (h >=? User.notificationStartHour u)
                 && (h <=? User.notificationEndHour u)
            else (h >=? User.notificationStartHour u)
                 || (h <=? User.notificationEndHour u))
      = User.withinTimeWindow (User.notificationStartHour u)
                              (User.notificationEndHour u) h).
    { unfold User.withinTimeWindow. zsolve. }
    rewrite Hwin.
    destruct (User.withinTimeWindow _ _ h); cbn [negb]; [| reflexivity].
    set (f := JS.str_or (User.notificationFrequency u) "1hr").
    destruct (frequency_cases f) as [-> | [-> | [-> | [H1 [H30 H2]]]]];
      try reflexivity.
    unfold User.frequencyRule.
    apply String.eqb_neq in H1, H30, H2. now rewrite H1, H30, H2.
  - intros He H0 Hs.
    unfold VerifyFixes.shouldReceiveNotificationAtHour,
           User.shouldReceiveNotificationAtHour, User.withinTimeWindow.
    rewrite He, H0. cbn [Z.eqb].
    assert (Hge : (0 >=? User.notificationStartHour u) = false).
    { rewrite Z.geb_leb. apply Z.leb_gt. lia. }
    rewrite Hge. cbn [andb orb negb].
    destruct (User.notificationsEnabled u); cbn [negb andb]; [| now split].
    split; [reflexivity |].
    set (f := JS.str_or (User.notificationFrequency u) "1hr").
    destruct (frequency_cases f) as [-> | [-> | [-> | [H1 [H30 H2]]]]];
      try reflexivity.
    unfold User.frequencyRule.
    apply String.eqb_neq in H1, H30, H2. now rewrite H1, H30, H2.
Qed.

Lemma verify_fixes_copy_differs_at_midnight_witness :
  User.shouldReceiveNotificationAtHour (User.mk true 5 0 "1hr") 0 0 false = false /\
  VerifyFixes.shouldReceiveNotificationAtHour (User.mk true 5 0 "1hr") 0 0 = true.
Proof.
  destruct (verify_fixes_copy_differs_at_midnight (User.mk true 5 0 "1hr") 0 0
              ltac:(lia)) as [_ Hdiff].
  destruct (Hdiff eq_refl eq_refl ltac:(cbn; lia)) as [Hmodel Hcopy].
  split; [exact Hmodel | exact Hcopy].
Defined.

(* ===================================================================== *)
(** ** Properties of validation, classification and configuration        *)
(* ===================================================================== *)

Section WebPushUtilFacts.

Import WebPushUtil.

(** [prefix p s] holds exactly when [s] starts with [p]. *)
Lemma prefix_spec (p s : string) :
  String.prefix p s = true <-> exists r, s = (p ++ r)%string.
Proof.
  revert s. induction p as [| c p IH]; intros s.
  - split; [intros _; now exists s | intros _; now destruct s].
  - destruct s as [| d s]; cbn.
    + split; [discriminate | intros [r Hr]; discriminate].
    + destruct (Ascii.ascii_dec c d) as [-> | Hne].
      * rewrite IH. split; intros [r Hr]; exists r; congruence.
      * split; [discriminate | intros [r Hr]; congruence].
Qed.

(** [includes s sub] holds exactly when [sub] occurs somewhere in [s]. *)
Lemma includes_spec (s sub : string) :
  includes s sub = true <-> exists a b, s = (a ++ sub ++ b)%string.
Proof.
  induction s as [| c s IH]; cbn [includes].
  - destruct (String.prefix sub "") eqn:Hp.
    + split; [intros _ | reflexivity].
      apply prefix_spec in Hp. destruct Hp as [r Hr]. now exists "", r.
    + split; [discriminate |].
      intros [a [b Hab]]. destruct a; cbn in Hab; [| discriminate].
      assert (Hp' : String.prefix sub "" = true)
        by (apply prefix_spec; now exists b).
      congruence.
  - destruct (String.prefix sub (String c s)) eqn:Hp.
    + split; [intros _ | reflexivity].
      apply prefix_spec in Hp. destruct Hp as [r Hr]. now exists "", r.
    + rewrite IH. split.
      * intros [a [b Hab]]. exists (String c a), b. cbn. now rewrite Hab.
      * intros [a [b Hab]]. destruct a as [| c' a]; cbn in Hab.
        -- assert (Hp' : String.prefix sub (String c s) = true)
             by (apply prefix_spec; now exists b).
           congruence.
        -- injection Hab as _ Hs. now exists a, b.
Qed.

End WebPushUtilFacts.

(** X6. [handleFailedNotification] classifies by the text of the message
    alone: a failure is flagged for removal exactly when its message
    contains one of the phrases Gone, Not Found or Bad Request, and for
    retry exactly when it contains Too Many Requests, Internal Server Error
    or Service Unavailable; the message is handed back unchanged. *)
Theorem failure_classified_by_message_text
        (subscription : Subscription.t) (error : string) :
  let info := WebPushUtil.handleFailedNotification subscription error in
  (WebPushUtil.shouldRemove info = true <->
   exists phrase a b,
     In phrase ["Gone"; "Not Found"; "Bad Request"] /\
     error = (a ++ phrase ++ b)%string) /\
  (WebPushUtil.shouldRetry info = true <->
   exists phrase a b,
     In phrase ["Too Many Requests"; "Internal Server Error"; "Service Unavailable"] /\
     error = (a ++ phrase ++ b)%string) /\
  WebPushUtil.info_error info = error.
Proof.
  cbn zeta. unfold WebPushUtil.handleFailedNotification.
  cbn [WebPushUtil.shouldRemove WebPushUtil.shouldRetry WebPushUtil.info_error].
  repeat split.
  - intros H. apply existsb_exists in H. destruct H as [phrase [Hin Hinc]].
    apply includes_spec in Hinc. destruct Hinc as [a [b Hab]].
    now exists phrase, a, b.
  - intros [phrase [a [b [Hin Hab]]]]. apply existsb_exists.
    exists phrase. split; [exact Hin |]. apply includes_spec. now exists a, b.
  - intros H. apply existsb_exists in H. destruct H as [phrase [Hin Hinc]].
    apply includes_spec in Hinc. destruct Hinc as [a [b Hab]].
    now exists phrase, a, b.
  - intros [phrase [a [b [Hin Hab]]]]. apply existsb_exists.
    exists phrase. split; [exact Hin |]. apply includes_spec. now exists a, b.
Qed.

(** X7. What [validateSubscription] accepts is what the schema's pre-save
    hook accepts: given that the empty string is not a URL, an object
    passes the validation exactly when it has an endpoint and both keys and
    the hook raises no error on the document made from them. *)
Theorem validation_matches_pre_save_hook
        (url_ok : string -> bool) (s : WebPushUtil.SubscriptionArg) :
  url_ok "" = false ->
  (WebPushUtil.validateSubscription url_ok (Some s) = true <->
   exists e k a,
     WebPushUtil.arg_endpoint s = Some e /\
     WebPushUtil.arg_keys s = Some (WebPushUtil.mkKeysArg (Some k) (Some a)) /\
     WebPushUtil.preSave url_ok (Subscription.fresh None e k a) = None).
Proof.
  intros Hempty. destruct s as [ep ks].
  unfold WebPushUtil.validateSubscription, WebPushUtil.preSave, WebPush.truthy.
  cbn [WebPushUtil.arg_endpoint WebPushUtil.arg_keys].
  split.
  - destruct ep as [e |]; [| discriminate].
    destruct (String.eqb_spec e "") as [-> | He]; cbn [negb]; [discriminate |].
    destruct ks as [[[k |] [a |]] |]; cbn [WebPushUtil.arg_p256dh
      WebPushUtil.arg_auth negb orb]; try discriminate;
      try (destruct (String.eqb k ""); discriminate).
    destruct (String.eqb_spec k "") as [-> | Hk]; cbn [negb orb];
      [discriminate |].
    destruct (String.eqb_spec a "") as [-> | Ha]; cbn [negb orb];
      [discriminate |].
    intros Hurl. exists e, k, a. repeat split. cbn.
    apply String.eqb_neq in Hk, Ha. now rewrite Hurl, Hk, Ha.
  - intros [e [k [a [-> [-> Hhook]]]]]. cbn in Hhook |- *.
    destruct (url_ok e) eqn:Hurl; cbn in Hhook; [| discriminate].
    destruct (String.eqb_spec e "") as [-> | He]; [congruence |].
    destruct (String.eqb k ""), (String.eqb a ""); cbn in Hhook |- *;
      try discriminate. reflexivity.
Qed.

Lemma validation_matches_pre_save_hook_witness :
  let url_ok := fun s => String.prefix "https://" s in
  WebPushUtil.validateSubscription url_ok
    (Some (WebPushUtil.mkSubscriptionArg
             (Some "https://push.example/1")
             (Some (WebPushUtil.mkKeysArg (Some "k") (Some "a"))))) = true.
Proof.
  intros url_ok.
  apply (validation_matches_pre_save_hook url_ok
           (WebPushUtil.mkSubscriptionArg
              (Some "https://push.example/1")
              (Some (WebPushUtil.mkKeysArg (Some "k") (Some "a"))))
           eq_refl).
  exists "https://push.example/1", "k", "a". repeat split.
Defined.

Section BulkFacts.

Import WebPush.

Variable env : Env.
Variable transport :
  nat -> option PushSubscription -> string -> Options -> completion Response.

(** The array [sendBulkNotifications] returns, entry by entry. *)
Lemma bulk_entries (subscriptions : list (option PushSubscription))
      (payload : string) (options : OptionsArg) :
  sendBulkNotifications env transport subscriptions payload options
  = Returned
      (mapi (fun i sub =>
               {| subscription := sub;
                  result := outcome_of
                              (sendNotification env transport i sub payload options) |})
            subscriptions).
Proof.
  unfold sendBulkNotifications. f_equal.
  apply nth_error_ext. intros k.
  rewrite !mapi_nth_error. unfold at_index.
  destruct (nth_error subscriptions k); reflexivity.
Qed.

(** A function that does not use the index. *)
Lemma mapi_from_const {A B} (f : A -> B) (xs : list A) (i : nat) :
  mapi_from i (fun _ x => f x) xs = map f xs.
Proof.
  revert i. induction xs as [| x xs IH]; intros i; cbn; [reflexivity |].
  now rewrite IH.
Qed.

End BulkFacts.

(** X8. Without both VAPID keys nothing is sent: whatever the push
    service would answer, every subscription of a fan-out gets the failure
    "VAPID keys not configured" (a missing subscription object gets the
    failure of its rejected send), and no entry is a success. *)
Theorem unconfigured_keys_fail_every_send
        (env : WebPush.Env)
        (transport : nat -> option WebPush.PushSubscription -> string ->
                     WebPush.Options -> WebPush.completion WebPush.Response)
        (subscriptions : list (option WebPush.PushSubscription))
        (payload : string) (options : WebPush.OptionsArg) :
  WebPushUtil.isWebPushConfigured env = false ->
  WebPush.sendBulkNotifications env transport subscriptions payload options
  = WebPush.Returned
      (map (fun sub =>
              WebPush.mkEntry sub
                match sub with
                | Some s =>
                    WebPush.Failed "VAPID keys not configured" None
                                   (Some (WebPush.push_endpoint s))
                | None =>
                    WebPush.Failed
                      "Cannot read properties of undefined (reading 'endpoint')"
                      None None
                end)
           subscriptions).
Proof.
  intros Hoff. rewrite bulk_entries. f_equal.
  unfold WebPush.mapi. rewrite <- (mapi_from_const _ subscriptions 0).
  unfold WebPushUtil.isWebPushConfigured in Hoff.
  assert (Hguard : negb (WebPush.truthy (WebPush.VAPID_PUBLIC_KEY env))
                   || negb (WebPush.truthy (WebPush.VAPID_PRIVATE_KEY env)) = true).
  { destruct (WebPush.truthy (WebPush.VAPID_PUBLIC_KEY env)),
             (WebPush.truthy (WebPush.VAPID_PRIVATE_KEY env));
      cbn in *; congruence. }
  generalize 0%nat. induction subscriptions as [| sub subs IH]; intros i; cbn;
    [reflexivity |].
  rewrite IH. f_equal.
  unfold WebPush.sendNotification. rewrite Hguard.
  destruct sub; reflexivity.
Qed.

Lemma unconfigured_keys_fail_every_send_witness :
  let env := WebPush.mkEnv (Some "public") None in
  let transport (i : nat) (sub : option WebPush.PushSubscription)
                (p : string) (o : WebPush.Options) :=
    WebPush.Returned (WebPush.mkResponse 201 []) in
  let a := WebPush.mkPush "https://push.example/a" "ka" "aa" in
  WebPush.sendBulkNotifications env transport [Some a] "{}" WebPush.noOptions
  = WebPush.Returned
      [WebPush.mkEntry (Some a)
         (WebPush.Failed "VAPID keys not configured" None
                         (Some "https://push.example/a"))].
Proof.
  intros env transport a.
  apply (unconfigured_keys_fail_every_send env transport [Some a] "{}"
                                           WebPush.noOptions).
  reflexivity.
Defined.



(* ===================================================================== *)
(** ** Properties of a run of the reminder job                           *)
(* ===================================================================== *)

Section RunFacts.

Variable users : string -> option User.t.
Variable env : WebPush.Env.
Variable transport :
  nat -> option WebPush.PushSubscription -> string -> WebPush.Options ->
  WebPush.completion WebPush.Response.
Variable JSON_stringify : WebPushUtil.Notification -> string.
Variable date_at : nat -> Z.
Variable save_resolves : nat -> bool.

(** A document handed out by a query is made from a stored document that
    passes the query's filter. *)
Lemma getAllActiveSubscriptions_In (store : list SubscriptionStore.Row)
      (sub : Subscription.t) :
  In sub (SubscriptionStore.getAllActiveSubscriptions users store) ->
  exists r, In r store /\ SubscriptionStore.active_filter r = true /\
            sub = SubscriptionStore.loaded users r.
Proof.
  unfold SubscriptionStore.getAllActiveSubscriptions.
  intros Hin. apply in_map_iff in Hin. destruct Hin as [r [Hr Hf]].
  apply filter_In in Hf. destruct Hf as [Hin Hact]. now exists r.
Qed.

Lemma getActiveSubscriptionsForUser_In (userId : string)
      (store : list SubscriptionStore.Row) (sub : Subscription.t) :
  In sub (SubscriptionStore.getActiveSubscriptionsForUser userId store) ->
  exists r, In r store /\ SubscriptionStore.active_filter r = true /\
            sub = SubscriptionStore.projected None r.
Proof.
  unfold SubscriptionStore.getActiveSubscriptionsForUser.
  intros Hin. apply in_map_iff in Hin. destruct Hin as [r [Hr Hf]].
  apply filter_In in Hf. destruct Hf as [Hin Hact].
  apply andb_true_iff in Hact. destruct Hact as [_ Hact]. now exists r.
Qed.

(** What a projected document carries. *)
Lemma projected_fields (owner : option User.t) (r : SubscriptionStore.Row) :
  SubscriptionStore.active_filter r = true ->
  Subscription.isActive (SubscriptionStore.projected owner r) = true /\
  Subscription.failedAttempts (SubscriptionStore.projected owner r) = JS.Undefined.
Proof.
  unfold SubscriptionStore.active_filter. intros Hact.
  apply andb_true_iff in Hact. destruct Hact as [Hact _].
  split; [exact Hact | reflexivity].
Qed.

Lemma loaded_fields (r : SubscriptionStore.Row) :
  SubscriptionStore.active_filter r = true ->
  Subscription.isActive (SubscriptionStore.loaded users r) = true /\
  Subscription.failedAttempts (SubscriptionStore.loaded users r) = JS.Undefined.
Proof. apply projected_fields. Qed.

(** The subscriptions a run selects are among those the query returned. *)
Lemma enabledSubscriptions_In (isTestMode : bool) (h m : Z)
      (subs : list Subscription.t) (sub : Subscription.t) :
  In sub (Cron.enabledSubscriptions isTestMode h m subs) -> In sub subs.
Proof.
  unfold Cron.enabledSubscriptions. intros Hin.
  apply filter_In in Hin. tauto.
Qed.

Local Abbreviation step := (Reminders.step env transport date_at save_resolves).

(** The processed results of a run, subscription by subscription. *)
Lemma processed_results (payload : string) (enabled : list Subscription.t) :
  exists results,
    WebPush.sendBulkNotifications env transport
      (map (fun sub => Some (Cron.getWebPushFormat sub)) enabled)
      payload Reminders.runOptions = WebPush.Returned results /\
    WebPush.mapi (Reminders.processResult date_at save_resolves enabled) results
    = WebPush.mapi (step payload) enabled.
Proof.
  eexists. split; [apply bulk_entries |].
  apply nth_error_ext. intros k.
  rewrite !mapi_nth_error, nth_error_map.
  destruct (nth_error enabled k) as [sub |] eqn:Hk; cbn; [| reflexivity].
  unfold Reminders.processResult, Reminders.step. rewrite Hk. cbn.
  now destruct (WebPush.outcome_of _).
Qed.

Lemma step_document (payload : string) (i : nat) (sub : Subscription.t) :
  exists d, fst (step payload i sub) = Some d /\
            (d = Subscription.markAsSuccessful (date_at i) sub \/
             exists error, d = Subscription.markAsFailed sub error).
Proof.
  unfold Reminders.step. destruct (WebPush.outcome_of _) as [c hs | error c ep]; cbn;
    eexists; split; try reflexivity; [now left | right; now exists error].
Qed.

Lemma present_steps_length (payload : string) (enabled : list Subscription.t)
      (i : nat) :
  List.length
    (Reminders.present (map fst (WebPush.mapi_from i (step payload) enabled)))
  = List.length enabled.
Proof.
  revert i. induction enabled as [| sub enabled IH]; intros i; cbn;
    [reflexivity |].
  destruct (step_document payload i sub) as [d [Hd _]]. rewrite Hd. cbn.
  now rewrite IH.
Qed.

Lemma present_steps_In (payload : string) (enabled : list Subscription.t)
      (i : nat) (d : Subscription.t) :
  In d (Reminders.present (map fst (WebPush.mapi_from i (step payload) enabled))) ->
  exists k sub, In sub enabled /\ fst (step payload k sub) = Some d.
Proof.
  revert i. induction enabled as [| sub enabled IH]; intros i; cbn;
    [contradiction |].
  destruct (step_document payload i sub) as [d0 [Hd0 _]]. rewrite Hd0. cbn.
  intros [<- | Hin].
  - exists i, sub. auto.
  - destruct (IH _ Hin) as [k [sub' [Hsub Hstep]]]. exists k, sub'. auto.
Qed.

(** A run, once the selection is known. *)
Lemma run_on_selection (isTestMode : bool) (h m ts : Z)
      (store : list SubscriptionStore.Row) :
  let enabled :=
    Cron.enabledSubscriptions isTestMode h m
      (SubscriptionStore.getAllActiveSubscriptions users store) in
  let payload :=
    JSON_stringify (Reminders.reminderNotification isTestMode h m ts) in
  let processed := WebPush.mapi (step payload) enabled in
  Reminders.sendHydrationReminders users env transport JSON_stringify
                                   date_at save_resolves isTestMode h m ts store
  = match enabled with
    | [] => None
    | _ :: _ =>
        Some {| Reminders.documents := Reminders.present (map fst processed);
                Reminders.successCount :=
                  List.length (filter (fun p => snd p) processed);
                Reminders.failedCount :=
                  List.length (filter (fun p => negb (snd p)) processed) |}
    end.
Proof.
  intros enabled payload processed.
  unfold Reminders.sendHydrationReminders.
  fold enabled.
  destruct (SubscriptionStore.getAllActiveSubscriptions users store)
    as [| s0 subs] eqn:Hq.
  - subst enabled. reflexivity.
  - destruct enabled as [| e0 enabled'] eqn:He; [reflexivity |].
    fold payload.
    destruct (processed_results payload (e0 :: enabled')) as [results [Hrun Hproc]].
    rewrite Hrun, Hproc. reflexivity.
Qed.

(** The early failure of a send when the keys are missing. *)
Lemma step_unconfigured (payload : string) (i : nat) (sub : Subscription.t) :
  WebPushUtil.isWebPushConfigured env = false ->
  step payload i sub
  = (Some (Subscription.markAsFailed sub "VAPID keys not configured"), false).
Proof.
  intros Hoff. unfold Reminders.step, WebPush.sendNotification.
  unfold WebPushUtil.isWebPushConfigured in Hoff.
  destruct (WebPush.truthy (WebPush.VAPID_PUBLIC_KEY env)),
           (WebPush.truthy (WebPush.VAPID_PRIVATE_KEY env));
    cbn in *; congruence.
Qed.

End RunFacts.

(** X10. A document handed out by either query does not carry its failure
    counter, so a failure recorded on it stores the count 1 whatever the
    stored count was, and leaves the document active. *)
Theorem failure_on_loaded_document_stores_one
        (users : string -> option User.t) (userId : string)
        (store : list SubscriptionStore.Row)
        (sub : Subscription.t) (error : string) :
  In sub (SubscriptionStore.getAllActiveSubscriptions users store) \/
  In sub (SubscriptionStore.getActiveSubscriptionsForUser userId store) ->
  Subscription.tracked (Subscription.markAsFailed sub error)
  = (JS.Int 1, Some error, true).
Proof.
  intros Hin.
  assert (Hrow : exists owner r, SubscriptionStore.active_filter r = true /\
                                 sub = SubscriptionStore.projected owner r).
  { destruct Hin as [Hin | Hin].
    - apply getAllActiveSubscriptions_In in Hin.
      destruct Hin as [r [_ [Hact ->]]].
      now exists (users (SubscriptionStore.row_owner r)), r.
    - apply getActiveSubscriptionsForUser_In in Hin.
      destruct Hin as [r [_ [Hact ->]]]. now exists None, r. }
  destruct Hrow as [owner [r [Hact ->]]].
  destruct (projected_fields owner r Hact) as [Hactive _].
  unfold Subscription.tracked, Subscription.markAsFailed. cbn.
  cbn in Hactive. now rewrite Hactive.
Qed.

Lemma failure_on_loaded_document_stores_one_witness :
  let row := SubscriptionStore.mkRow 1 "u1" None 0
               (Subscription.mk None "https://push.example/1" "k" "a"
                                true None (JS.Int 4) (Some "Gone")) in
  let users := fun _ : string => Some (User.mk true 5 0 "1hr") in
  Subscription.tracked
    (Subscription.markAsFailed (SubscriptionStore.loaded users row) "Gone")
  = (JS.Int 1, Some "Gone", true).
Proof.
  intros row users.
  apply (failure_on_loaded_document_stores_one users "u1" [row]).
  left. cbn. left. reflexivity.
Defined.

(** X11. A run sends exactly when somebody is due, and then accounts for
    every selected subscription once: it leaves one document per selected
    subscription and its two counters add up to their number, also when
    saving a document fails. *)
Theorem run_counts_every_selected_subscription
        (users : string -> option User.t) (env : WebPush.Env)
        (transport : nat -> option WebPush.PushSubscription -> string ->
                     WebPush.Options -> WebPush.completion WebPush.Response)
        (JSON_stringify : WebPushUtil.Notification -> string)
        (date_at : nat -> Z) (save_resolves : nat -> bool)
        (isTestMode : bool) (h m ts : Z) (store : list SubscriptionStore.Row) :
  let enabled :=
    Cron.enabledSubscriptions isTestMode h m
      (SubscriptionStore.getAllActiveSubscriptions users store) in
  let run :=
    Reminders.sendHydrationReminders users env transport JSON_stringify
      date_at save_resolves isTestMode h m ts store in
  (enabled = [] -> run = None) /\
  (enabled <> [] ->
   exists o, run = Some o /\
     List.length (Reminders.documents o) = List.length enabled /\
     (Reminders.successCount o + Reminders.failedCount o)%nat
     = List.length enabled).
Proof.
  intros enabled run. subst run. rewrite run_on_selection. fold enabled.
  split.
  - now intros ->.
  - intros Hne. destruct enabled as [| e0 enabled'] eqn:He; [contradiction |].
    eexists. split; [reflexivity |]. cbn [Reminders.documents
      Reminders.successCount Reminders.failedCount].
    split.
    + apply present_steps_length.
    + rewrite filter_length. unfold WebPush.mapi. apply mapi_from_length.
Qed.

Lemma run_counts_every_selected_subscription_witness :
  let users := fun _ : string => Some (User.mk true 5 0 "1hr") in
  let env := WebPush.mkEnv (Some "public") (Some "private") in
  let transport (i : nat) (sub : option WebPush.PushSubscription)
                (p : string) (o : WebPush.Options) :=
    WebPush.Returned (WebPush.mkResponse 201 []) in
  let row := SubscriptionStore.mkRow 1 "u1" None 0
               (Subscription.fresh None "https://push.example/1" "k" "a") in
  exists o,
    Reminders.sendHydrationReminders users env transport (fun _ => "{}")
      (fun _ => 0) (fun _ => true) false 10 15 0 [row] = Some o /\
    List.length (Reminders.documents o) = 1%nat /\
    (Reminders.successCount o + Reminders.failedCount o)%nat = 1%nat.
Proof.
  intros users env transport row.
  apply (proj2 (run_counts_every_selected_subscription users env transport
                  (fun _ => "{}") (fun _ => 0) (fun _ => true)
                  false 10 15 0 [row])).
  discriminate.
Defined.

(** X12. A run never deactivates a subscription: every document it leaves
    is active, with no failed attempts and no error after a success or with
    one failed attempt and the error after a failure, so the query of the
    next run still selects it. *)
Theorem run_never_deactivates
        (users : string -> option User.t) (env : WebPush.Env)
        (transport : nat -> option WebPush.PushSubscription -> string ->
                     WebPush.Options -> WebPush.completion WebPush.Response)
        (JSON_stringify : WebPushUtil.Notification -> string)
        (date_at : nat -> Z) (save_resolves : nat -> bool)
        (isTestMode : bool) (h m ts : Z) (store : list SubscriptionStore.Row)
        (o : Reminders.Outcome) (d : Subscription.t) :
  Reminders.sendHydrationReminders users env transport JSON_stringify
    date_at save_resolves isTestMode h m ts store = Some o ->
  In d (Reminders.documents o) ->
  (Subscription.tracked d = (JS.Int 0, None, true) \/
   exists error, Subscription.tracked d = (JS.Int 1, Some error, true)) /\
  Subscription.isActive d
  && SubscriptionStore.lt (Subscription.failedAttempts d) 5 = true.
Proof.
  rewrite run_on_selection.
  set (enabled := Cron.enabledSubscriptions isTestMode h m
                    (SubscriptionStore.getAllActiveSubscriptions users store)).
  intros Hrun Hd.
  assert (Hsel : forall sub, In sub enabled ->
                   In sub (SubscriptionStore.getAllActiveSubscriptions users store))
    by (intros sub; apply enabledSubscriptions_In).
  destruct enabled as [| e0 enabled']; [discriminate |].
  injection Hrun as <-.
  assert (Hin : In d (Reminders.present
                        (map fst
                           (WebPush.mapi_from 0
                              (Reminders.step env transport date_at save_resolves
                                 (JSON_stringify
                                    (Reminders.reminderNotification
                                       isTestMode h m ts)))
                              (e0 :: enabled'))))) by exact Hd.
  apply present_steps_In in Hin. destruct Hin as [k [sub [Hsub Hstep]]].
  destruct (step_document env transport date_at save_resolves
              (JSON_stringify (Reminders.reminderNotification isTestMode h m ts))
              k sub) as [d' [Hd' Hcases]].
  rewrite Hstep in Hd'. injection Hd' as <-.
  apply Hsel, getAllActiveSubscriptions_In in Hsub.
  destruct Hsub as [r [_ [Hact ->]]].
  destruct (loaded_fields users r Hact) as [Hactive _]. cbn in Hactive.
  destruct Hcases as [-> | [error ->]].
  - split; [now left | reflexivity].
  - unfold Subscription.tracked, Subscription.markAsFailed. cbn.
    rewrite Hactive. split; [right; now exists error | reflexivity].
Qed.

Lemma run_never_deactivates_witness :
  let users := fun _ : string => Some (User.mk true 5 0 "1hr") in
  let env := WebPush.mkEnv (Some "public") (Some "private") in
  let transport (i : nat) (sub : option WebPush.PushSubscription)
                (p : string) (o : WebPush.Options) :=
    @WebPush.Threw WebPush.Response
      (WebPush.mkError "Received unexpected response code" (Some 410)) in
  let row := SubscriptionStore.mkRow 1 "u1" None 0
               (Subscription.mk None "https://push.example/1" "k" "a"
                                true None (JS.Int 4) None) in
  let d := Subscription.markAsFailed (SubscriptionStore.loaded users row)
             "Received unexpected response code" in
  Subscription.isActive d
  && SubscriptionStore.lt (Subscription.failedAttempts d) 5 = true.
Proof.
  intros users env transport row d.
  apply (run_never_deactivates users env transport (fun _ => "{}")
           (fun _ => 0) (fun _ => true) false 10 0 0 [row]
           (Reminders.mkOutcome [d] 0 1) d).
  - reflexivity.
  - left. reflexivity.
Defined.

(** X13. A run without both VAPID keys records a failure with the message
    "VAPID keys not configured" on every selected subscription and counts
    no success, whatever the push service would answer. *)
Theorem unconfigured_run_fails_everyone
        (users : string -> option User.t) (env : WebPush.Env)
        (transport : nat -> option WebPush.PushSubscription -> string ->
                     WebPush.Options -> WebPush.completion WebPush.Response)
        (JSON_stringify : WebPushUtil.Notification -> string)
        (date_at : nat -> Z) (save_resolves : nat -> bool)
        (isTestMode : bool) (h m ts : Z) (store : list SubscriptionStore.Row) :
  let enabled :=
    Cron.enabledSubscriptions isTestMode h m
      (SubscriptionStore.getAllActiveSubscriptions users store) in
  WebPushUtil.isWebPushConfigured env = false ->
  enabled <> [] ->
  Reminders.sendHydrationReminders users env transport JSON_stringify
    date_at save_resolves isTestMode h m ts store
  = Some {| Reminders.documents :=
              map (fun sub =>
                     Subscription.markAsFailed sub "VAPID keys not configured")
                  enabled;
            Reminders.successCount := 0;
            Reminders.failedCount := List.length enabled |}.
Proof.
  intros enabled Hoff Hne. rewrite run_on_selection. fold enabled.
  set (payload := JSON_stringify _).
  assert (Hsteps : forall i xs,
            WebPush.mapi_from i
              (Reminders.step env transport date_at save_resolves payload) xs
            = map (fun sub => (Some (Subscription.markAsFailed sub
                                       "VAPID keys not configured"), false)) xs).
  { intros i xs. revert i. induction xs as [| x xs IH]; intros i; cbn;
      [reflexivity |].
    now rewrite IH, step_unconfigured. }
  destruct enabled as [| e0 enabled']; [contradiction |].
  unfold WebPush.mapi. rewrite Hsteps. f_equal.
  generalize (e0 :: enabled'). intros xs.
  induction xs as [| x xs IH]; [reflexivity |].
  cbn in *. injection IH as Hdocs Hsucc Hfail.
  now rewrite Hdocs, Hsucc, Hfail.
Qed.

Lemma unconfigured_run_fails_everyone_witness :
  let users := fun _ : string => Some (User.mk true 5 0 "1hr") in
  let env := WebPush.mkEnv None None in
  let transport (i : nat) (sub : option WebPush.PushSubscription)
                (p : string) (o : WebPush.Options) :=
    WebPush.Returned (WebPush.mkResponse 201 []) in
  let row := SubscriptionStore.mkRow 1 "u1" None 0
               (Subscription.fresh None "https://push.example/1" "k" "a") in
  Reminders.sendHydrationReminders users env transport (fun _ => "{}")
    (fun _ => 0) (fun _ => true) false 10 0 0 [row]
  = Some {| Reminders.documents :=
              [Subscription.markAsFailed (SubscriptionStore.loaded users row)
                 "VAPID keys not configured"];
            Reminders.successCount := 0;
            Reminders.failedCount := 1 |}.
Proof.
  intros users env transport row.
  apply (unconfigured_run_fails_everyone users env transport (fun _ => "{}")
           (fun _ => 0) (fun _ => true) false 10 0 0 [row]).
  - reflexivity.
  - discriminate.
Defined.



(* ===================================================================== *)
(** ** Properties of the collection, its cleanup and the routes          *)
(* ===================================================================== *)

Section StoreFacts.

Import SubscriptionStore.

Local Abbreviation ep := (fun r : Row => Subscription.endpoint (row_doc r)).

(** Two stored documents with the same key are the same document. *)
Lemma NoDup_map_eq {B : Type} (f : Row -> B) (store : list Row) (x y : Row) :
  NoDup (map f store) -> In x store -> In y store -> f x = f y -> x = y.
Proof.
  induction store as [| r store IH]; cbn; [contradiction |].
  intros Hnd Hx Hy Hf. inversion Hnd as [| ? ? Hnotin Hnd']; subst.
  destruct Hx as [-> | Hx], Hy as [-> | Hy]; auto.
  - exfalso. apply Hnotin. rewrite Hf. now apply in_map.
  - exfalso. apply Hnotin. rewrite <- Hf. now apply in_map.
Qed.

Lemma deleteOne_In (p : Row -> bool) (store : list Row) (r : Row) :
  In r (deleteOne p store) -> In r store.
Proof.
  induction store as [| x store IH]; cbn; [contradiction |].
  destruct (p x); cbn; intuition.
Qed.

Lemma deleteOne_keeps (p : Row -> bool) (store : list Row) (r : Row) :
  In r store -> p r = false -> In r (deleteOne p store).
Proof.
  induction store as [| x store IH]; cbn; [contradiction |].
  intros [-> | Hin] Hp.
  - rewrite Hp. now left.
  - destruct (p x); [exact Hin | right; auto].
Qed.

Lemma deleteOne_NoDup {B : Type} (f : Row -> B) (p : Row -> bool)
      (store : list Row) :
  NoDup (map f store) -> NoDup (map f (deleteOne p store)).
Proof.
  induction store as [| x store IH]; cbn; [trivial |].
  intros Hnd. inversion Hnd as [| ? ? Hnotin Hnd']; subst.
  destruct (p x); [exact Hnd' |]. cbn. constructor; [| auto].
  intros Hin. apply Hnotin. apply in_map_iff in Hin.
  destruct Hin as [r [Hr Hin]]. apply deleteOne_In in Hin.
  rewrite <- Hr. now apply in_map.
Qed.

(** Deleting the only document that matches removes its key. *)
Lemma deleteOne_removes {B : Type} (f : Row -> B) (p : Row -> bool)
      (store : list Row) (x : Row) :
  NoDup (map f store) -> In x store -> p x = true ->
  (forall r, In r store -> p r = true -> r = x) ->
  ~ In (f x) (map f (deleteOne p store)).
Proof.
  induction store as [| r store IH]; cbn; [contradiction |].
  intros Hnd Hx Hpx Huniq. inversion Hnd as [| ? ? Hnotin Hnd']; subst.
  destruct (p r) eqn:Hpr.
  - assert (r = x) by (apply Huniq; auto). now subst.
  - destruct Hx as [-> | Hx]; [congruence |].
    cbn. intros [Heq | Hin].
    + apply Hnotin. rewrite Heq. now apply in_map.
    + revert Hin. apply IH; auto.
Qed.

Lemma replaceOne_map {B : Type} (f : Row -> B) (store : list Row) (x r' : Row) :
  NoDup (map row_id store) -> In x store -> f r' = f x ->
  map f (replaceOne (row_id x) r' store) = map f store.
Proof.
  induction store as [| r store IH]; cbn; [contradiction |].
  intros Hnd Hx Hf. inversion Hnd as [| ? ? Hnotin Hnd']; subst.
  destruct (Nat.eqb_spec (row_id r) (row_id x)) as [Heq | Hne].
  - assert (r = x).
    { destruct Hx as [-> | Hx]; [reflexivity |].
      exfalso. apply Hnotin. rewrite Heq. now apply in_map. }
    subst. cbn. now rewrite Hf.
  - destruct Hx as [-> | Hx]; [congruence |].
    cbn. f_equal. now apply IH.
Qed.

Lemma replaceOne_In_new (store : list Row) (x r' : Row) :
  In x store -> In r' (replaceOne (row_id x) r' store).
Proof.
  induction store as [| r store IH]; cbn; [contradiction |].
  intros Hx. destruct (Nat.eqb_spec (row_id r) (row_id x)) as [Heq | Hne].
  - now left.
  - destruct Hx as [-> | Hx]; [congruence |]. right. auto.
Qed.

Lemma replaceOne_In_other (store : list Row) (id : nat) (r r' : Row) :
  row_id r <> id ->
  In r store -> In r (replaceOne id r' store).
Proof.
  induction store as [| x store IH]; cbn; [contradiction |].
  intros Hne [-> | Hin].
  - destruct (Nat.eqb_spec (row_id r) id); [contradiction | now left].
  - destruct (Nat.eqb (row_id x) id); right; auto.
Qed.

Lemma replaceOne_In_inv (store : list Row) (id : nat) (r r' : Row) :
  In r (replaceOne id r' store) -> r = r' \/ In r store.
Proof.
  induction store as [| x store IH]; cbn; [contradiction |].
  destruct (Nat.eqb (row_id x) id); cbn.
  - intros [<- | Hin]; auto.
  - intros [<- | Hin]; auto. destruct (IH Hin); auto.
Qed.

End StoreFacts.

(** X15. The daily cleanup keeps every subscription the scheduler would
    still load: an active document with fewer than five failed attempts is
    never deleted.  The count it reports is the number of documents that
    left the collection, and a second cleanup with the same date deletes
    nothing. *)
Theorem cleanup_keeps_live_subscriptions
        (thirtyDaysAgo : Z) (store : list SubscriptionStore.Row) :
  let kept := fst (SubscriptionStore.cleanupInactiveSubscriptions thirtyDaysAgo store) in
  let deletedCount :=
    snd (SubscriptionStore.cleanupInactiveSubscriptions thirtyDaysAgo store) in
  (forall r, In r store -> SubscriptionStore.active_filter r = true -> In r kept) /\
  (deletedCount + List.length kept = List.length store)%nat /\
  SubscriptionStore.cleanupInactiveSubscriptions thirtyDaysAgo kept = (kept, 0%nat).
Proof.
  cbn zeta. unfold SubscriptionStore.cleanupInactiveSubscriptions.
  cbn [fst snd]. repeat split.
  - intros r Hin Hact. apply filter_In. split; [exact Hin |].
    unfold SubscriptionStore.active_filter in Hact.
    apply andb_true_iff in Hact. destruct Hact as [Hactive Hlt].
    unfold SubscriptionStore.cleanup_filter. rewrite Hactive. cbn.
    unfold SubscriptionStore.lt, SubscriptionStore.gte in *.
    destruct (Subscription.failedAttempts (SubscriptionStore.row_doc r));
      try reflexivity.
    apply Z.ltb_lt in Hlt. rewrite Z.geb_leb.
    apply negb_true_iff, Z.leb_gt. lia.
  - apply filter_length.
  - f_equal.
    + apply forallb_filter_id. apply forallb_forall.
      intros r Hr. apply filter_In in Hr. tauto.
    + assert (Hnone : forall l,
                (forall r, In r l ->
                   SubscriptionStore.cleanup_filter thirtyDaysAgo r = false) ->
                filter (SubscriptionStore.cleanup_filter thirtyDaysAgo) l = []).
      { induction l as [| x l IH]; cbn; [reflexivity |].
        intros Hall. rewrite (Hall x) by now left. apply IH.
        intros r Hr. apply Hall. now right. }
      rewrite Hnone; [reflexivity |].
      intros r Hr. apply filter_In in Hr. destruct Hr as [_ Hr].
      now apply negb_true_iff in Hr.
Qed.

Lemma cleanup_keeps_live_subscriptions_witness :
  let live := SubscriptionStore.mkRow 1 "u1" None 0
                (Subscription.fresh None "https://push.example/1" "k" "a") in
  let dead := SubscriptionStore.mkRow 2 "u2" None 0
                (Subscription.mk None "https://push.example/2" "k" "a"
                                 false None (JS.Int 5) (Some "Gone")) in
  In live (fst (SubscriptionStore.cleanupInactiveSubscriptions 1000 [dead; live])).
Proof.
  intros live dead.
  apply (proj1 (cleanup_keeps_live_subscriptions 1000 [dead; live]) live).
  - right. left. reflexivity.
  - reflexivity.
Defined.

Section RouteFacts.

Import SubscriptionStore.

Local Abbreviation ep := (fun r : Row => Subscription.endpoint (row_doc r)).

(** What the unsubscribe route does to the collection. *)
Lemma unsubscribe_spec (userId e : string) (store : list Row) :
  store_ok store ->
  let status := fst (NotificationRoutes.unsubscribe userId (Some e) store) in
  let store' := snd (NotificationRoutes.unsubscribe userId (Some e) store) in
  (forall r, In r store' -> In r store) /\
  (forall r, In r store -> ep r <> e \/ row_owner r <> userId -> In r store') /\
  (status = 200 <->
   e <> "" /\ exists r, In r store /\ ep r = e /\ row_owner r = userId) /\
  (status = 200 -> forall r, In r store' -> ep r <> e) /\
  (status <> 200 -> store' = store).
Proof.
  intros [Hids Heps]. cbn zeta. unfold NotificationRoutes.unsubscribe.
  destruct (String.eqb_spec e "") as [-> | Hne]; cbn [fst snd].
  - repeat split; auto; try discriminate. intros [Habs _]. now contradiction Habs.
  - unfold findOne.
    set (p := fun r : Row => String.eqb (ep r) e && String.eqb (row_owner r) userId).
    destruct (find p store) as [x |] eqn:Hfind; cbn [fst snd].
    + apply find_some in Hfind. destruct Hfind as [Hx Hpx].
      pose proof Hpx as Hpx'. unfold p in Hpx'.
      apply andb_true_iff in Hpx'. destruct Hpx' as [Hxe Hxo].
      apply String.eqb_eq in Hxe, Hxo.
      assert (Huniq : forall r, In r store -> p r = true -> r = x).
      { intros r Hr Hpr. unfold p in Hpr. apply andb_true_iff in Hpr.
        destruct Hpr as [Hre _]. apply String.eqb_eq in Hre.
        apply (NoDup_map_eq ep store); auto. cbn in *. congruence. }
      repeat split; auto; try congruence.
      * intros r. apply deleteOne_In.
      * intros r Hr Hother. apply deleteOne_keeps; [exact Hr |].
        unfold p. apply not_true_is_false. intros Hpr.
        apply andb_true_iff in Hpr. destruct Hpr as [Hre Hro].
        apply String.eqb_eq in Hre, Hro. tauto.
      * exists x. auto.
      * intros _ r Hr Hre.
        apply (deleteOne_removes ep p store x Heps Hx Hpx Huniq).
        cbn. rewrite Hxe, <- Hre. now apply (in_map ep).
    + pose proof (find_none _ _ Hfind) as Hnone.
      repeat split; auto; try discriminate.
      intros [_ [r [Hr [Hre Hro]]]]. specialize (Hnone r Hr).
      unfold p in Hnone. cbn in Hre. rewrite Hre, Hro, !String.eqb_refl in Hnone.
      discriminate.
Qed.

Variable url_ok : string -> bool.

Lemma existsb_endpoint_false (e : string) (store : list Row) :
  ~ In e (map ep store) ->
  existsb (fun r => String.eqb (ep r) e) store = false.
Proof.
  intros Hnot. apply not_true_is_false. intros Hex.
  apply existsb_exists in Hex. destruct Hex as [r [Hin Heq]].
  apply String.eqb_eq in Heq. apply Hnot. rewrite <- Heq.
  exact (in_map ep _ _ Hin).
Qed.

(** What the subscribe route guarantees for a request that passes the
    validation, on a collection with unique ids and endpoints. *)
Lemma subscribe_spec (userId : string) (body : NotificationRoutes.SubscribeBody)
      (header_userAgent : option string) (newId : nat) (now : Z)
      (store : list Row) (e : string) :
  store_ok store ->
  ~ In newId (map row_id store) ->
  NotificationRoutes.body_endpoint body = Some e ->
  WebPushUtil.validateSubscription url_ok
    (Some {| WebPushUtil.arg_endpoint := NotificationRoutes.body_endpoint body;
             WebPushUtil.arg_keys := NotificationRoutes.body_keys body |}) = true ->
  let status := fst (NotificationRoutes.subscribe url_ok userId body
                       header_userAgent newId now store) in
  let store' := snd (NotificationRoutes.subscribe url_ok userId body
                       header_userAgent newId now store) in
  (status = 200 \/ status = 201) /\
  store_ok store' /\
  (exists r, In r store' /\ ep r = e) /\
  (forall r, In r store' -> ep r = e ->
     row_owner r = userId /\
     Subscription.isActive (row_doc r) = true /\
     Subscription.failedAttempts (row_doc r) = JS.Int 0) /\
  (forall r, ep r <> e -> (In r store' <-> In r store)).
Proof.
  intros [Hids Heps] Hfresh He Hvalid. cbn zeta.
  unfold NotificationRoutes.subscribe. rewrite Hvalid, He. cbn [negb].
  destruct (NotificationRoutes.body_keys body) as [keys |] eqn:Hkeys.
  2:{ unfold WebPushUtil.validateSubscription in Hvalid.
      cbn in Hvalid. rewrite He in Hvalid. cbn in Hvalid.
      destruct (negb (negb (String.eqb e ""))); discriminate. }
  unfold findOne.
  destruct (find _ store) as [existing |] eqn:Hfind.
  - (* the caller already holds this endpoint *)
    apply find_some in Hfind. destruct Hfind as [Hin Hp].
    apply andb_true_iff in Hp. destruct Hp as [Howner Hep].
    apply String.eqb_eq in Howner, Hep.
    cbn [fst snd].
    set (updated := {| row_id := row_id existing |}).
    assert (Hmap_id : map row_id (replaceOne (row_id existing) updated store)
                      = map row_id store)
      by (apply replaceOne_map; auto).
    assert (Hmap_ep : map ep (replaceOne (row_id existing) updated store)
                      = map ep store)
      by (apply (replaceOne_map ep); auto).
    assert (Hok' : store_ok (replaceOne (row_id existing) updated store)).
    { split; [now rewrite Hmap_id | now rewrite Hmap_ep]. }
    assert (Hnew : In updated (replaceOne (row_id existing) updated store))
      by now apply replaceOne_In_new.
    split; [now left |]. split; [exact Hok' |]. split; [| split].
    + exists updated. split; [exact Hnew | exact Hep].
    + intros r Hr Hre.
      assert (r = updated).
      { apply (NoDup_map_eq ep (replaceOne (row_id existing) updated store));
          [apply Hok' | assumption | assumption |].
        cbn. congruence. }
      subst r. cbn. auto.
    + intros r Hre. split.
      * intros Hr. apply replaceOne_In_inv in Hr. destruct Hr as [-> | Hr];
          [| exact Hr]. exfalso. apply Hre. exact Hep.
      * intros Hr. apply replaceOne_In_other; [| exact Hr].
        intros Hid. apply Hre.
        assert (r = existing) by (apply (NoDup_map_eq row_id store); auto).
        now subst r.
  - (* a new document; an endpoint held by somebody else is taken over *)
    pose proof (find_none _ _ Hfind) as Hnone.
    set (store1 := match findByEndpoint e store with
                   | Some existingEndpoint =>
                       if negb (String.eqb (row_owner existingEndpoint) userId)
                       then deleteOne (fun r => Nat.eqb (row_id r)
                                                        (row_id existingEndpoint))
                                      store
                       else store
                   | None => store
                   end).
    assert (Hstore1 :
              store_ok store1 /\ ~ In e (map ep store1) /\
              (forall r, In r store1 -> In r store) /\
              (forall r, In r store -> ep r <> e -> In r store1)).
    { subst store1. unfold findByEndpoint, findOne.
      destruct (find (fun r : Row =>
                        String.eqb (Subscription.endpoint (row_doc r)) e) store)
        as [ex |] eqn:Hfe.
      - apply find_some in Hfe. destruct Hfe as [Hex Hexe].
        apply String.eqb_eq in Hexe.
        destruct (String.eqb_spec (row_owner ex) userId) as [Ho | Ho]; cbn [negb].
        + exfalso. specialize (Hnone ex Hex). cbn in Hnone.
          rewrite Ho, Hexe, !String.eqb_refl in Hnone. discriminate.
        + assert (Huniq : forall r, In r store ->
                    Nat.eqb (row_id r) (row_id ex) = true -> r = ex).
          { intros r Hr Hid. apply Nat.eqb_eq in Hid.
            apply (NoDup_map_eq row_id store); auto. }
          repeat split.
          * now apply deleteOne_NoDup.
          * now apply (deleteOne_NoDup ep).
          * rewrite <- Hexe.
            apply (deleteOne_removes ep); auto. apply Nat.eqb_refl.
          * intros r. apply deleteOne_In.
          * intros r Hr Hre. apply deleteOne_keeps; [exact Hr |].
            apply not_true_is_false. intros Hid.
            apply Hre. rewrite (Huniq r Hr Hid). exact Hexe.
      - pose proof (find_none _ _ Hfe) as Hnoep.
        repeat split; auto.
        intros Hine. apply in_map_iff in Hine. destruct Hine as [r [Hr Hin]].
        specialize (Hnoep r Hin). cbn in Hnoep.
        rewrite Hr, String.eqb_refl in Hnoep. discriminate. }
    destruct Hstore1 as [[Hids1 Heps1] [Hnoe [Hsub Hsup]]].
    rewrite existsb_endpoint_false by exact Hnoe.
    cbn [fst snd].
    set (newSubscription := {| row_id := newId |}).
    split; [now right |]. split; [| split; [| split]].
    + split.
      * rewrite map_app. cbn. apply NoDup_app; [exact Hids1 | | ].
        -- constructor; [intros [] | constructor].
        -- intros x Hx [<- | []]. apply Hfresh.
           apply in_map_iff in Hx. destruct Hx as [r [Hr Hin]].
           rewrite <- Hr. apply in_map. now apply Hsub.
      * rewrite map_app. cbn. apply NoDup_app; [exact Heps1 | | ].
        -- constructor; [intros [] | constructor].
        -- intros x Hx [<- | []]. now apply Hnoe.
    + exists newSubscription. split; [| reflexivity].
      apply in_or_app. right. now left.
    + intros r Hr Hre. apply in_app_or in Hr. destruct Hr as [Hr | [<- | []]].
      * exfalso. apply Hnoe. rewrite <- Hre. now apply (in_map ep).
      * cbn. auto.
    + intros r Hre. split.
      * intros Hr. apply in_app_or in Hr. destruct Hr as [Hr | [<- | []]];
          [now apply Hsub |]. exfalso. now apply Hre.
      * intros Hr. apply in_or_app. left. now apply Hsup.
Qed.

(** An object that passes the validation has a non-empty endpoint. *)
Lemma valid_endpoint_not_empty (s : WebPushUtil.SubscriptionArg) (e : string) :
  WebPushUtil.arg_endpoint s = Some e ->
  WebPushUtil.validateSubscription url_ok (Some s) = true -> e <> "".
Proof.
  intros He Hvalid Hempty. subst e.
  unfold WebPushUtil.validateSubscription in Hvalid. rewrite He in Hvalid.
  cbn in Hvalid. discriminate.
Qed.

End RouteFacts.

(** X16. Subscribing with a valid body on a collection with unique ids and
    endpoints answers 200 or 201 and leaves the endpoint with the caller
    alone: afterwards exactly one document has that endpoint, it belongs to
    the caller, is active and has no failed attempts (a deactivated
    subscription is revived, a document another user held is replaced),
    ids and endpoints are still unique, and the documents of all other
    endpoints are untouched. *)
Theorem subscribe_gives_the_endpoint_to_the_caller
        (url_ok : string -> bool) (userId : string)
        (body : NotificationRoutes.SubscribeBody)
        (header_userAgent : option string) (newId : nat) (now : Z)
        (store : list SubscriptionStore.Row) (e : string) :
  SubscriptionStore.store_ok store ->
  ~ In newId (map SubscriptionStore.row_id store) ->
  NotificationRoutes.body_endpoint body = Some e ->
  WebPushUtil.validateSubscription url_ok
    (Some {| WebPushUtil.arg_endpoint := NotificationRoutes.body_endpoint body;
             WebPushUtil.arg_keys := NotificationRoutes.body_keys body |}) = true ->
  let status := fst (NotificationRoutes.subscribe url_ok userId body
                       header_userAgent newId now store) in
  let store' := snd (NotificationRoutes.subscribe url_ok userId body
                       header_userAgent newId now store) in
  (status = 200 \/ status = 201) /\
  SubscriptionStore.store_ok store' /\
  (exists r, In r store' /\
             Subscription.endpoint (SubscriptionStore.row_doc r) = e) /\
  (forall r, In r store' ->
     Subscription.endpoint (SubscriptionStore.row_doc r) = e ->
     SubscriptionStore.row_owner r = userId /\
     Subscription.isActive (SubscriptionStore.row_doc r) = true /\
     Subscription.failedAttempts (SubscriptionStore.row_doc r) = JS.Int 0) /\
  (forall r, Subscription.endpoint (SubscriptionStore.row_doc r) <> e ->
     (In r store' <-> In r store)).
Proof.
  intros Hok Hfresh He Hvalid.
  exact (subscribe_spec url_ok userId body header_userAgent newId now store e
                        Hok Hfresh He Hvalid).
Qed.

Lemma subscribe_gives_the_endpoint_to_the_caller_witness :
  let url_ok := fun s => String.prefix "https://" s in
  let body := NotificationRoutes.mkSubscribeBody
                (Some "https://push.example/1")
                (Some (WebPushUtil.mkKeysArg (Some "k2") (Some "a2"))) None in
  let other := SubscriptionStore.mkRow 1 "u1" None 0
                 (Subscription.mk None "https://push.example/1" "k" "a"
                                  false None (JS.Int 5) (Some "Gone")) in
  let status := fst (NotificationRoutes.subscribe url_ok "u2" body None 2 10 [other]) in
  let store' := snd (NotificationRoutes.subscribe url_ok "u2" body None 2 10 [other]) in
  (status = 200 \/ status = 201) /\
  SubscriptionStore.store_ok store' /\
  exists r, In r store' /\
            Subscription.endpoint (SubscriptionStore.row_doc r)
            = "https://push.example/1".
Proof.
  intros url_ok body other status store'.
  assert (Hok : SubscriptionStore.store_ok [other]).
  { split; cbn; repeat (constructor; [cbn; intuition congruence |]);
      constructor. }
  assert (Hfresh : ~ In 2%nat (map SubscriptionStore.row_id [other])).
  { cbn. intros [H | []]. discriminate H. }
  destruct (subscribe_gives_the_endpoint_to_the_caller
              url_ok "u2" body None 2 10 [other] "https://push.example/1"
              Hok Hfresh eq_refl eq_refl)
    as [Hstatus [Hok' [Hex _]]].
  split; [exact Hstatus |]. split; [exact Hok' | exact Hex].
Defined.

(** X17. Unsubscribing removes at most the caller's own document for the
    endpoint: documents of other users or other endpoints always stay,
    nothing is added, the answer is 200 exactly when the endpoint is not
    empty and the caller holds it, no document with the endpoint is left
    then, and with any other answer the collection is unchanged. *)
Theorem unsubscribe_removes_only_the_callers_document
        (userId e : string) (store : list SubscriptionStore.Row) :
  SubscriptionStore.store_ok store ->
  let status := fst (NotificationRoutes.unsubscribe userId (Some e) store) in
  let store' := snd (NotificationRoutes.unsubscribe userId (Some e) store) in
  (forall r, In r store' -> In r store) /\
  (forall r, In r store ->
     Subscription.endpoint (SubscriptionStore.row_doc r) <> e \/
     SubscriptionStore.row_owner r <> userId -> In r store') /\
  (status = 200 <->
   e <> "" /\
   exists r, In r store /\
             Subscription.endpoint (SubscriptionStore.row_doc r) = e /\
             SubscriptionStore.row_owner r = userId) /\
  (status = 200 ->
   forall r, In r store' ->
             Subscription.endpoint (SubscriptionStore.row_doc r) <> e) /\
  (status <> 200 -> store' = store).
Proof.
  intros Hok. exact (unsubscribe_spec userId e store Hok).
Qed.

Lemma unsubscribe_removes_only_the_callers_document_witness :
  let mine := SubscriptionStore.mkRow 1 "u1" None 0
                (Subscription.fresh None "https://push.example/1" "k" "a") in
  let theirs := SubscriptionStore.mkRow 2 "u2" None 0
                  (Subscription.fresh None "https://push.example/2" "k" "a") in
  In theirs (snd (NotificationRoutes.unsubscribe "u1" (Some "https://push.example/1")
                    [mine; theirs])).
Proof.
  intros mine theirs.
  assert (Hok : SubscriptionStore.store_ok [mine; theirs]).
  { split; cbn; repeat (constructor; [cbn; intuition congruence |]);
      constructor. }
  apply (proj1 (proj2 (unsubscribe_removes_only_the_callers_document
                         "u1" "https://push.example/1" [mine; theirs] Hok))).
  - right. left. reflexivity.
  - left. cbn. discriminate.
Defined.

(** X18. Subscribing and then unsubscribing the same endpoint as the same
    user is answered 200 and leaves no document with that endpoint, while
    the documents of all other endpoints are those of the collection before
    the two requests. *)
Theorem subscribe_then_unsubscribe
        (url_ok : string -> bool) (userId : string)
        (body : NotificationRoutes.SubscribeBody)
        (header_userAgent : option string) (newId : nat) (now : Z)
        (store : list SubscriptionStore.Row) (e : string) :
  SubscriptionStore.store_ok store ->
  ~ In newId (map SubscriptionStore.row_id store) ->
  NotificationRoutes.body_endpoint body = Some e ->
  WebPushUtil.validateSubscription url_ok
    (Some {| WebPushUtil.arg_endpoint := NotificationRoutes.body_endpoint body;
             WebPushUtil.arg_keys := NotificationRoutes.body_keys body |}) = true ->
  let subscribed := snd (NotificationRoutes.subscribe url_ok userId body
                           header_userAgent newId now store) in
  let status := fst (NotificationRoutes.unsubscribe userId (Some e) subscribed) in
  let final := snd (NotificationRoutes.unsubscribe userId (Some e) subscribed) in
  status = 200 /\
  (forall r, In r final ->
             Subscription.endpoint (SubscriptionStore.row_doc r) <> e) /\
  (forall r, Subscription.endpoint (SubscriptionStore.row_doc r) <> e ->
             (In r final <-> In r store)).
Proof.
  intros Hok Hfresh He Hvalid. cbn zeta.
  destruct (subscribe_spec url_ok userId body header_userAgent newId now store e
                           Hok Hfresh He Hvalid)
    as [_ [Hok' [[r0 [Hr0 Hr0e]] [Hmine Hothers]]]].
  destruct (unsubscribe_spec userId e _ Hok')
    as [Hsub [Hkeep [Hstatus [Hgone _]]]].
  assert (Hne : e <> "").
  { apply (valid_endpoint_not_empty url_ok
             {| WebPushUtil.arg_endpoint := NotificationRoutes.body_endpoint body;
                WebPushUtil.arg_keys := NotificationRoutes.body_keys body |});
      assumption. }
  assert (H200 : fst (NotificationRoutes.unsubscribe userId (Some e)
                        (snd (NotificationRoutes.subscribe url_ok userId body
                                header_userAgent newId now store))) = 200).
  { apply Hstatus. split; [exact Hne |]. exists r0.
    split; [exact Hr0 |]. split; [exact Hr0e |].
    now destruct (Hmine r0 Hr0 Hr0e). }
  split; [exact H200 |]. split; [now apply Hgone |].
  intros r Hre. split.
  - intros Hr. apply Hothers; [exact Hre |]. now apply Hsub.
  - intros Hr. apply Hkeep; [| now left]. now apply Hothers.
Qed.

Lemma subscribe_then_unsubscribe_witness :
  let url_ok := fun s => String.prefix "https://" s in
  let body := NotificationRoutes.mkSubscribeBody
                (Some "https://push.example/1")
                (Some (WebPushUtil.mkKeysArg (Some "k") (Some "a"))) None in
  fst (NotificationRoutes.unsubscribe "u1" (Some "https://push.example/1")
         (snd (NotificationRoutes.subscribe url_ok "u1" body None 1 10 []))) = 200.
Proof.
  intros url_ok body.
  assert (Hok : SubscriptionStore.store_ok []) by (split; constructor).
  exact (proj1 (subscribe_then_unsubscribe url_ok "u1" body None 1 10 []
                  "https://push.example/1" Hok (fun H => H) eq_refl eq_refl)).
Defined.

(* ===================================================================== *)
(** ** Properties of the timers and of the profile route                 *)
(* ===================================================================== *)

Section TimerFacts.

Import Cron.

(** After any operation the test timer is unset, at most the production
    timer runs, and the cleanup tasks have not decreased. *)
Lemma apply_op_invariant (st : State) (op : Reminders.Op) :
  testCronJob st = None ->
  (cronJob st = None \/ cronJob st = Some (mkTask false Scheduled)) ->
  testCronJob (Reminders.apply_op st op) = None /\
  (cronJob (Reminders.apply_op st op) = None \/
   cronJob (Reminders.apply_op st op) = Some (mkTask false Scheduled)) /\
  (cleanupJobs st <= cleanupJobs (Reminders.apply_op st op))%nat.
Proof.
  intros Htest Hprod.
  destruct op as [| | NODE_ENV |]; cbn;
    unfold startTestMode, startProductionMode, start, stop; cbn;
    try destruct (is_production NODE_ENV);
    try (destruct (cronJob st) eqn:Hc); cbn;
    repeat split; auto; try lia.
  rewrite Hc. exact Hprod.
Qed.

End TimerFacts.

(** X19. Whatever sequence of start, stop, startTestMode and
    startProductionMode calls is made after loading the module, the timers
    never run a test-mode tick and never run two tickers: the only ticker
    that can be scheduled is the production one, and the status never
    reports the test ticker as running. *)
Theorem timers_never_tick_in_test_mode (ops : list Reminders.Op) :
  let st := Reminders.run_ops Cron.initial ops in
  (Cron.tick_modes st = [] \/ Cron.tick_modes st = [false]) /\
  Cron.isRunning (Cron.test (Cron.getStatus st)) = false.
Proof.
  cbn zeta.
  assert (Hinv : Cron.testCronJob (Reminders.run_ops Cron.initial ops) = None /\
                 (Cron.cronJob (Reminders.run_ops Cron.initial ops) = None \/
                  Cron.cronJob (Reminders.run_ops Cron.initial ops)
                  = Some (Cron.mkTask false Cron.Scheduled))).
  { unfold Reminders.run_ops.
    induction ops as [| op ops IH] using rev_ind; cbn; [auto |].
    rewrite fold_left_app. cbn. destruct IH as [Htest Hprod].
    destruct (apply_op_invariant _ op Htest Hprod) as [H1 [H2 _]]. auto. }
  destruct Hinv as [Htest Hprod].
  unfold Cron.tick_modes, Cron.getStatus, Cron.task_running. cbn.
  rewrite Htest. destruct Hprod as [-> | ->]; cbn; auto.
Qed.





(** X22. A production run selects by the hour alone: whatever minute the
    clock shows, a subscription is selected exactly when its owner exists,
    has notifications enabled and a window containing the hour, and, for
    the two-hour frequency, the hour is even. *)
Theorem production_run_selects_by_hour_alone
        (h m : Z) (subs : list Subscription.t) (sub : Subscription.t) :
  In sub (Cron.enabledSubscriptions false h m subs) <->
  In sub subs /\
  exists u,
    Subscription.userId sub = Some u /\
    User.notificationsEnabled u = true /\
    User.withinTimeWindow (User.notificationStartHour u)
                          (User.notificationEndHour u) h = true /\
    (User.notificationFrequency u = "2hr" -> JS.rem_is_zero h 2 = true).
Proof.
  unfold Cron.enabledSubscriptions. rewrite filter_In.
  assert (Hrule : forall f,
            User.frequencyRule false (JS.str_or f "1hr") h 0 = true <->
            (f = "2hr" -> JS.rem_is_zero h 2 = true)).
  { intros f. unfold JS.str_or.
    destruct (String.eqb_spec f "") as [-> | Hne].
    - cbn. split; [discriminate | reflexivity].
    - destruct (frequency_cases f) as [-> | [-> | [-> | [H1 [H30 H2]]]]].
      + cbn. split; [discriminate | reflexivity].
      + cbn. split; [discriminate | reflexivity].
      + cbn. rewrite andb_true_r. tauto.
      + rewrite frequencyRule_default by assumption. cbn. tauto. }
  split.
  - intros [Hin Hdue]. split; [exact Hin |].
    destruct (Subscription.userId sub) as [u |]; [| discriminate].
    exists u. split; [reflexivity |].
    destruct (User.notificationsEnabled u) eqn:Hon;
      [| now rewrite disabled_never_due in Hdue].
    rewrite enabled_due in Hdue by exact Hon.
    apply andb_true_iff in Hdue. destruct Hdue as [Hwin Hfreq].
    split; [reflexivity |]. split; [exact Hwin |]. now apply Hrule.
  - intros [Hin [u [Hu [Hon [Hwin Hfreq]]]]]. split; [exact Hin |].
    rewrite Hu, enabled_due by exact Hon.
    rewrite Hwin. cbn [andb]. now apply Hrule.
Qed.
